(** * Superset frontend: explore-page hydration, query auto-refresh polling
      and the annotation modal

    A shallow embedding of
    - [superset-frontend/src/pages/Chart/index.tsx] ([fetchExploreData] and
      the data-loading effect of [ExplorePage]),
    - the [QueryAutoRefresh] behaviour pinned down by its test-suite, and
    - [AnnotationModal] ([validate], [onSave] and the form handlers),
    followed by the properties the specification states about them. *)

From Stdlib Require Import String Ascii List ZArith Bool Arith Lia DecimalString.
Import ListNotations.
Local Open Scope string_scope.

(** ** JavaScript values

    The code moves untyped JSON payloads around and branches on their
    truthiness, so values are modelled as a JSON tree.  Numbers are the
    integers (ids and lengths are the only numbers the modelled code reads);
    an object is the list of its own properties in insertion order. *)
Module JS.

#[local] Unset Elimination Schemes.
Inductive value : Type :=
| JUndefined
| JNull
| JBool (b : bool)
| JNum (n : Z)
| JString (s : string)
| JArray (items : list value)
| JObject (fields : list (string * value)).
#[local] Set Elimination Schemes.

Definition props : Type := list (string * value).

(** [if (v)], [!v]: [undefined], [null], [false], [0] and [''] are falsy. *)
Definition truthy (v : value) : bool :=
  match v with
  | JUndefined | JNull => false
  | JBool b => b
  | JNum n => negb (Z.eqb n 0)
  | JString s => negb (String.eqb s "")
  | JArray _ | JObject _ => true
  end.

(** [a || b] and [a && b] return one of their operands. *)
Definition js_or (a b : value) : value := if truthy a then a else b.
Definition js_and (a b : value) : value := if truthy a then b else a.

(** [v === null || v === undefined] *)
Definition nullish (v : value) : bool :=
  match v with
  | JUndefined | JNull => true
  | _ => false
  end.

Fixpoint lookup (k : string) (fs : props) : option value :=
  match fs with
  | [] => None
  | (k', v) :: rest => if String.eqb k k' then Some v else lookup k rest
  end.

(** [obj[k] = v]: overwrite in place, or append a new property. *)
Fixpoint set (k : string) (v : value) (fs : props) : props :=
  match fs with
  | [] => [(k, v)]
  | (k', v') :: rest =>
      if String.eqb k k' then (k, v) :: rest else (k', v') :: set k v rest
  end.

(** [delete obj[k]], also the rest pattern [{ k: _, ...rest }]. *)
Definition remove (k : string) (fs : props) : props :=
  filter (fun kv => negb (String.eqb k (fst kv))) fs.

(** Keys are distinct in every object the code can build.  Where a list
    repeats a key its first entry is the property ([lookup] reads it, [set]
    overwrites it, [remove] drops all of them); [canon] drops the shadowed
    entries. *)
Fixpoint canon (fs : props) : props :=
  match fs with
  | [] => []
  | (k, v) :: rest => (k, v) :: remove k (canon rest)
  end.

(** No entry of the list is shadowed by an earlier one. *)
Fixpoint distinct (fs : props) : Prop :=
  match fs with
  | [] => True
  | (k, _) :: rest => lookup k rest = None /\ distinct rest
  end.

(** [Object.assign(target, source)] *)
Definition assign (target source : props) : props :=
  fold_left (fun acc kv => set (fst kv) (snd kv) acc) (canon source) target.

Definition index_key (i : nat) : string :=
  NilZero.string_of_uint (Nat.to_uint i).

Definition isDigit (c : ascii) : bool :=
  let n := nat_of_ascii c in Nat.leb 48 n && Nat.leb n 57.

(** The string is an array index as [index_key] writes it: digits only. *)
Fixpoint allDigits (s : string) : bool :=
  match s with
  | EmptyString => true
  | String c rest => isDigit c && allDigits rest
  end.

Fixpoint indexed {A : Type} (i : nat) (l : list A) : list (string * A) :=
  match l with
  | [] => []
  | x :: rest => (index_key i, x) :: indexed (S i) rest
  end.

Fixpoint chars (s : string) : list value :=
  match s with
  | EmptyString => []
  | String c rest => JString (String c EmptyString) :: chars rest
  end.

(** The own enumerable properties, as the spread [{...v}] copies them:
    those of an object, the indices of an array or a string, none of the
    other primitives. *)
Definition own (v : value) : props :=
  match v with
  | JObject fs => canon fs
  | JArray l => indexed 0 l
  | JString s => indexed 0 (chars s)
  | _ => []
  end.

(** [{...v}] *)
Definition spread (v : value) : props := assign [] (own v).

(** [Object.values(v)] *)
Definition values (v : value) : list value := map snd (own v).

(** Property read [v?.k].  On [null] and [undefined] the optional chain
    gives [undefined]; every plain read [v.k] of the modelled code is made
    on a value already known to be truthy, where the two agree. *)
Definition prop (v : value) (k : string) : value :=
  match v with
  | JObject fs =>
      match lookup k fs with Some x => x | None => JUndefined end
  | JArray l =>
      if String.eqb k "length" then JNum (Z.of_nat (List.length l))
      else match lookup k (indexed 0 l) with Some x => x | None => JUndefined end
  | JString s =>
      if String.eqb k "length" then JNum (Z.of_nat (String.length s))
      else match lookup k (indexed 0 (chars s)) with Some x => x | None => JUndefined end
  | _ => JUndefined
  end.

(** String conversion, as a template literal applies it. *)
Fixpoint to_string (v : value) : string :=
  match v with
  | JUndefined => "undefined"
  | JNull => "null"
  | JBool true => "true"
  | JBool false => "false"
  | JNum n => NilZero.string_of_int (Z.to_int n)
  | JString s => s
  | JArray l =>
      let elt x := match x with JUndefined | JNull => "" | _ => to_string x end in
      (fix join (l : list value) : string :=
         match l with
         | [] => ""
         | [x] => elt x
         | x :: rest => elt x ++ "," ++ join rest
         end) l
  | JObject _ => "[object Object]"
  end.

(** How a promise settles. *)
Inductive outcome : Type :=
| Resolved (v : value)
| Rejected (reason : value).

(** [new Error(message)]: the only properties of an error the modelled code
    reads are [message] and [extra]; a fresh [Error] has no [extra]. *)
Definition Error (message : string) : value :=
  JObject [("message", JString message)].

End JS.

Import JS.
Notation "v ?. k" := (prop v k) (at level 20, left associativity).

(** ** REST requests *)
Inductive http_method : Type := GET | POST | PUT | DELETE.

Record request : Type := mkRequest {
  method : http_method;
  endpoint : string
}.

(** ** Explore page: [pages/Chart/index.tsx] *)
Module ExplorePage.

(** Redux actions the page dispatches. *)
Inductive action : Type :=
| hydrateExplore (payload : value)
| addDangerToast (message : value).

Definition newline : string := String (ascii_of_nat 10) EmptyString.

Definition exploreRequest : request := mkRequest GET "api/v1/explore/".

Definition chartRequest (chartId : string) : request :=
  mkRequest GET ("api/v1/chart/" ++ chartId).

(** Modelled from the spec: [isDefined] is imported from [@superset-ui/core]
    and is not part of the excerpt; the specification reads its use here as
    "the dataset has an id", that is a value that is neither [null] nor
    [undefined]. *)
Definition isDefined (v : value) : bool := negb (nullish v).

(** [rv?.result?.form_data && rv?.result?.dataset] *)
Definition isValidResult (rv : value) : value :=
  js_and (rv ?. "result" ?. "form_data") (rv ?. "result" ?. "dataset").

(** [isDefined(rv?.result?.dataset?.id)] *)
Definition hasDatasetId (rv : value) : bool :=
  isDefined (rv ?. "result" ?. "dataset" ?. "id").

(** Modelled from the spec: [getClientErrorObject] lives in
    [@superset-ui/core], outside the excerpt; it serves "extracting a
    human-readable message from the error payload".  The payload it reads is
    an object (a response or an error) or a plain string.  On any other
    reason ([undefined], [null], a boolean, a number) reading the payload
    throws, so its promise rejects and with it the [Promise.all] of the
    [.catch] handler. *)
Definition clientErrorSettles (err : value) : bool :=
  match err with
  | JObject _ | JArray _ | JString _ => true
  | _ => false
  end.

(** [LabelsColorMapSource], the enumeration of [@superset-ui/core]. *)
Inductive LabelsColorMapSource : Type := Dashboard | Explore.

Section Page.

(** Collaborators that live outside the excerpt: the translation function,
    the normaliser of client errors (the value its promise resolves with,
    when it resolves) and the dashboard-context merge.  The translation, the
    merge, the action creators and [dispatch] are taken to return. *)
Variable t : string -> string.
Variable getClientErrorObject : value -> value.
Variable getFormDataWithDashboardContext : value -> value -> value -> value.

(** The message of the error [fetchExploreData] throws. *)
Definition failureMessage (rv : value) : string :=
  let message := t "Failed to load chart data" in
  let responseError := rv ?. "result" ?. "message" in
  if truthy responseError
  then message ++ ":" ++ newline ++ to_string responseError
  else message.

(** [fetchExploreData]: [api] is how the GET on [api/v1/explore/] settled and
    [fallback] the shared [fallbackExploreInitialData] object, which the
    function updates in place; the result is how the returned promise settles
    together with the fallback object afterwards. *)
Definition fetchExploreData (api : outcome) (fallback : props)
  : outcome * props :=
  match api with
  | Rejected reason => (Rejected reason, fallback)
  | Resolved rv =>
      if truthy (isValidResult rv) then
        if hasDatasetId rv then (Resolved rv, fallback)
        else
          let fallback1 :=
            set "form_data"
              (JObject (assign (spread (rv ?. "result" ?. "form_data"))
                               (own (JObject fallback ?. "form_data"))))
              fallback in
          let fallback2 :=
            if truthy (rv ?. "result" ?. "slice")
            then set "slice" (rv ?. "result" ?. "slice") fallback1
            else fallback1 in
          (Rejected (Error (failureMessage rv)), fallback2)
      else (Rejected (Error (failureMessage rv)), fallback)
  end.

(** The first [.then] handler: hydrate from a valid payload. *)
Definition onFetched (saveAction dashboardContextFormData rv : value)
  : list action :=
  let result := rv ?. "result" in
  let formData :=
    if truthy dashboardContextFormData
    then getFormDataWithDashboardContext
           (result ?. "form_data") dashboardContextFormData saveAction
    else result ?. "form_data" in
  [hydrateExplore
     (JObject (set "saveAction" saveAction
                 (set "form_data" formData (spread result))))].

(** [clientError?.message || clientError?.error || t('Failed to load chart data.')] *)
Definition errorMesage (clientError : value) : value :=
  js_or (js_or (clientError ?. "message") (clientError ?. "error"))
        (JString (t "Failed to load chart data.")).

(** The explore data used when the error names the datasource. *)
Definition exploreDataFor (err : value) (fallback : props) : props :=
  set "dataset"
    (JObject
       (set "extra" (JObject [("error", err)])
          (set "name" (err ?. "extra" ?. "datasource_name")
             (set "id" (err ?. "extra" ?. "datasource")
                (spread (JObject fallback ?. "dataset"))))))
    (spread (JObject fallback)).

(** [owners?.map(({ id }) => id)]; [None] when the expression throws. *)
Definition ownerIds (owners : value) : option value :=
  match owners with
  | JUndefined | JNull => Some JUndefined
  | JArray l =>
      if existsb nullish l then None
      else Some (JArray (map (fun o => o ?. "id") l))
  | _ => None
  end.

(** The handler of the chart request:
    [({ result: { id, url, owners, form_data: _, ...data } }) => slice];
    [None] when the destructuring or the body throws. *)
Definition sliceOfChart (err response : value) : option props :=
  if nullish response then None
  else
    let result := response ?. "result" in
    if nullish result then None
    else
      let data :=
        remove "form_data"
          (remove "owners" (remove "url" (remove "id" (spread result)))) in
      match ownerIds (result ?. "owners") with
      | None => None
      | Some owners =>
          Some (set "owners" owners
                  (set "slice_url" (result ?. "url")
                     (set "slice_id" (result ?. "id")
                        (set "datasource" (err ?. "extra" ?. "datasource_name")
                           data))))
      end.

(** The [.catch] handler and the second [.then] handler on a rejection
    with reason [err]: when [Promise.all] rejects, the [.then] handler is
    skipped.  [chartId] is [exploreUrlParams.get('slice_id')] and
    [chartApi] how the chart request settles when it is made. *)
Definition onRejected (err chartId : value) (chartApi : outcome)
    (fallback : props) : list request * list action :=
  if negb (clientErrorSettles err) then ([], [])
  else
  let clientError := getClientErrorObject err in
  if negb (truthy err) then ([], [])
  else
    let toast := addDangerToast (errorMesage clientError) in
    if truthy (err ?. "extra" ?. "datasource") then
      let exploreData := exploreDataFor err fallback in
      if truthy chartId then
        let hydrated :=
          match chartApi with
          | Resolved response =>
              match sliceOfChart err response with
              | Some slice =>
                  hydrateExplore (JObject (set "slice" (JObject slice) (spread (JObject exploreData))))
              | None => hydrateExplore (JObject exploreData)
              end
          | Rejected _ => hydrateExplore (JObject exploreData)
          end in
        ([chartRequest (to_string chartId)], [toast; hydrated])
      else ([], [toast; hydrateExplore (JObject exploreData)])
    else ([], [toast; hydrateExplore (JObject fallback)]).

(** What one run of the data-loading effect leaves behind;
    [labelsColorMapSource] is [getLabelsColorMap().source]. *)
Record loaded : Type := mkLoaded {
  requests : list request;
  actions : list action;
  fallbackExploreInitialData : props;
  isLoaded : bool;
  isExploreInitialized : bool;
  labelsColorMapSource : LabelsColorMapSource
}.

(** The body of [useEffect] in [ExplorePage], from the point where
    [getDashboardContextFormData()] has returned
    [dashboardContextFormData]. *)
Definition loadExplore (initialized loadedBefore : bool)
    (saveAction dashboardContextFormData chartId : value)
    (exploreApi chartApi : outcome) (fallback : props) : loaded :=
  if negb initialized || truthy saveAction then
    match fetchExploreData exploreApi fallback with
    | (Resolved rv, fallback') =>
        mkLoaded [exploreRequest]
          (onFetched saveAction dashboardContextFormData rv)
          fallback' true true Explore
    | (Rejected err, fallback') =>
        let '(reqs, acts) := onRejected err chartId chartApi fallback' in
        mkLoaded (exploreRequest :: reqs) acts fallback' true true Explore
    end
  else mkLoaded [] [] fallback loadedBefore initialized Explore.

(** One run of the effect.  [dashboardContext] is what
    [getDashboardContextFormData()] returned, [None] when it threw: the
    effect then stops before it fetches, dispatches or sets anything. *)
Definition runEffect (initialized loadedBefore : bool)
    (saveAction : value) (dashboardContext : option value) (chartId : value)
    (exploreApi chartApi : outcome) (fallback : props) : option loaded :=
  match dashboardContext with
  | None => None
  | Some dashboardContextFormData =>
      Some (loadExplore initialized loadedBefore saveAction
              dashboardContextFormData chartId exploreApi chartApi fallback)
  end.

End Page.

End ExplorePage.

(** ** Query auto-refresh: [SqlLab/components/QueryAutoRefresh] *)
Module QueryAutoRefresh.

(** The actions the poller dispatches: the two of the component, and the
    events it hands to the logger. *)
Inductive action : Type :=
| REFRESH_QUERIES (payload : list value)
| CLEAR_INACTIVE_QUERIES
| LOG_EVENT (payload : value).

Definition refreshApi : string := "/api/v1/query/updated_since".

Definition refreshRequest : request := mkRequest GET refreshApi.

Definition isRefresh (a : action) : bool :=
  match a with
  | REFRESH_QUERIES _ => true
  | CLEAR_INACTIVE_QUERIES | LOG_EVENT _ => false
  end.

Section Polling.

(** The names of the states that count as running; the list is a constant
    of the component's module and is kept abstract. *)
Variable runningQueryStateList : list string.

(** What the response handler dispatches besides the refresh when the
    result list is not empty.  The suite's last test expects a log event for
    a query that failed; no test says whether the pruning action accompanies
    a refresh.  The excerpt does not determine these actions and they are
    kept abstract. *)
Variable furtherActions : list value -> list action.

(** Modelled from the spec: [isQueryRunning] is exported by
    [QueryAutoRefresh], whose source is not part of the excerpt (only its
    tests are).  A query is a record with a running/succeeded/failed state;
    it is running when its [state] is the name of a running state.  Anything
    that is not such a record (null, undefined, a string, an array, an
    object whose state is not a state name) is not running, as the tests
    assert. *)
Definition isQueryRunning (q : value) : bool :=
  match q ?. "state" with
  | JString s => existsb (String.eqb s) runningQueryStateList
  | _ => false
  end.

(** Modelled from the spec: [shouldCheckForQueries] is exported by
    [QueryAutoRefresh], whose source is not part of the excerpt.  Polling is
    needed while any tracked query of the dictionary is running; an argument
    that is not a dictionary needs none. *)
Definition shouldCheckForQueries (queries : value) : bool :=
  match queries with
  | JObject _ => existsb isQueryRunning (values queries)
  | _ => false
  end.

(** Modelled from the spec: the polling loop of [QueryAutoRefresh], whose
    source is not part of the excerpt.  The state is the number of status
    requests that were issued and have not been answered yet.  On a timer
    tick, while a tracked query is running the loop issues "a single
    outstanding network request"; when none is running it "skips the network
    call entirely" and, as the test on completed queries asserts, dispatches
    the pruning action. *)
Definition tick (queries : value) (outstanding : nat)
  : nat * list request * list action :=
  if shouldCheckForQueries queries then
    if Nat.eqb outstanding 0 then (S outstanding, [refreshRequest], [])
    else (outstanding, [], [])
  else (outstanding, [], [CLEAR_INACTIVE_QUERIES]).

(** Modelled from the spec: the handler of the status response.  The
    request is no longer outstanding.  The loop "dispatches a refresh action
    with the results": the tests on a non-empty result list expect a
    [REFRESH_QUERIES] action; the test on an empty result list expects
    [CLEAR_INACTIVE_QUERIES] and no [REFRESH_QUERIES] action at all. *)
Definition respond (result : list value) (outstanding : nat)
  : nat * list action :=
  (Nat.pred outstanding,
   match result with
   | [] => [CLEAR_INACTIVE_QUERIES]
   | _ :: _ => REFRESH_QUERIES result :: furtherActions result
   end).

(** One polling round from the idle state: the tick, and the answer
    [result] of the server to the request when the tick issued one. *)
Definition poll (queries : value) (result : list value)
  : list request * list action :=
  let '(outstanding, reqs, acts) := tick queries 0 in
  match reqs with
  | [] => (reqs, acts)
  | _ :: _ => (reqs, (acts ++ snd (respond result outstanding))%list)
  end.

(** What can happen to the poller: the timer fires with the current
    dictionary, or the answer to an outstanding request arrives. *)
Inductive event : Type :=
| Tick (queries : value)
| Response (result : list value).

Inductive step : nat -> event -> nat -> Prop :=
| step_tick : forall queries outstanding,
    step outstanding (Tick queries) (fst (fst (tick queries outstanding)))
| step_response : forall result outstanding,
    0 < outstanding ->
    step outstanding (Response result) (Nat.pred outstanding).

(** The states the poller can be in, starting with nothing outstanding. *)
Inductive reachable : nat -> Prop :=
| reachable_mount : reachable 0
| reachable_step : forall outstanding ev outstanding',
    reachable outstanding ->
    step outstanding ev outstanding' ->
    reachable outstanding'.

End Polling.

(** The fixtures the test-suite imports from [src/SqlLab/fixtures], reduced
    to the fields the poller reads, for a module whose only running state is
    named "running". *)
Definition runningQuery : value :=
  JObject [("id", JString "ryhMUZCGb"); ("state", JString "running")].
Definition successfulQuery : value :=
  JObject [("id", JString "ryhMUZCGb"); ("state", JString "success")].
Definition runningQueries : value := JObject [("ryhMUZCGb", runningQuery)].
Definition successfulQueries : value := JObject [("ryhMUZCGb", successfulQuery)].

End QueryAutoRefresh.

(** ** Annotation modal *)
Module AnnotationModal.

(** Modelled from the spec: the [AnnotationObject] type is declared in
    [./types], outside the excerpt.  An annotation is a record with
    descriptive text, a time range and JSON metadata; the fields are those
    the modal reads, writes or deletes.  An optional field is [None] when it
    is absent, [undefined] or [null]. *)
Record AnnotationObject : Type := mkAnnotation {
  id : option Z;
  short_descr : option string;
  start_dttm : option string;
  end_dttm : option string;
  json_metadata : option string;
  long_descr : option string;
  created_by : option value;
  changed_by : option value;
  changed_on_delta_humanized : option string;
  layer : option value
}.

(** The named text inputs [onAnnotationTextChange] can be wired to. *)
Inductive textField : Type :=
| name_short_descr
| name_start_dttm
| name_end_dttm
| name_json_metadata
| name_long_descr.

(** The calls on the [useSingleViewResource] hook. *)
Inductive resourceCall : Type :=
| fetchResource (resourceId : Z)
| createResource (payload : AnnotationObject)
| updateResource (update_id : Z) (payload : AnnotationObject).

(** What the modal does to its surroundings. *)
Inductive effect : Type :=
| onAnnotationAdd
| onHide
| addSuccessToast (message : string).

(** Modelled from the spec: the hook [useSingleViewResource] lives in
    [src/views/CRUD/hooks], outside the excerpt; the modal hands it the
    resource [annotation_layer/${annotationLayerId}/annotation], and the
    specification lists the REST calls on it as
    GET/POST/PUT /api/v1/annotation_layer/{id}/annotation. *)
Definition resourceRequest (annotationLayerId : Z) (call : resourceCall)
  : request :=
  let resource :=
    "/api/v1/annotation_layer/" ++ to_string (JNum annotationLayerId)
      ++ "/annotation" in
  match call with
  | fetchResource _ => mkRequest GET resource
  | createResource _ => mkRequest POST resource
  | updateResource _ _ => mkRequest PUT resource
  end.

(** [x?.length] as a condition: true on a non-empty string only. *)
Definition hasLength (x : option string) : bool :=
  match x with
  | Some s => negb (String.eqb s "")
  | None => false
  end.

(** [currentAnnotation?.id] as a condition. *)
Definition hasId (a : AnnotationObject) : bool :=
  match id a with
  | Some n => negb (Z.eqb n 0)
  | None => false
  end.

Definition field {A : Type} (f : AnnotationObject -> option A)
    (currentAnnotation : option AnnotationObject) : option A :=
  match currentAnnotation with
  | Some a => f a
  | None => None
  end.

(** The annotation [resetAnnotation] installs. *)
Definition resetAnnotation : AnnotationObject :=
  mkAnnotation None (Some "") (Some "") (Some "") (Some "") (Some "")
    None None None None.

(** The empty object [{}] that spreading a [null] annotation gives. *)
Definition emptyAnnotation : AnnotationObject :=
  mkAnnotation None None None None None None None None None None.

(** [{ ...currentAnnotation, end_dttm: currentAnnotation ? currentAnnotation.end_dttm : '',
       short_descr: ..., start_dttm: ... }] *)
Definition withRequired (currentAnnotation : option AnnotationObject)
  : AnnotationObject :=
  match currentAnnotation with
  | Some a => a
  | None =>
      mkAnnotation None (Some "") (Some "") (Some "") None None
        None None None None
  end.

Definition setField (name : textField) (v : string) (a : AnnotationObject)
  : AnnotationObject :=
  match name with
  | name_short_descr =>
      mkAnnotation (id a) (Some v) (start_dttm a) (end_dttm a)
        (json_metadata a) (long_descr a) (created_by a) (changed_by a)
        (changed_on_delta_humanized a) (layer a)
  | name_start_dttm =>
      mkAnnotation (id a) (short_descr a) (Some v) (end_dttm a)
        (json_metadata a) (long_descr a) (created_by a) (changed_by a)
        (changed_on_delta_humanized a) (layer a)
  | name_end_dttm =>
      mkAnnotation (id a) (short_descr a) (start_dttm a) (Some v)
        (json_metadata a) (long_descr a) (created_by a) (changed_by a)
        (changed_on_delta_humanized a) (layer a)
  | name_json_metadata =>
      mkAnnotation (id a) (short_descr a) (start_dttm a) (end_dttm a)
        (Some v) (long_descr a) (created_by a) (changed_by a)
        (changed_on_delta_humanized a) (layer a)
  | name_long_descr =>
      mkAnnotation (id a) (short_descr a) (start_dttm a) (end_dttm a)
        (json_metadata a) (Some v) (created_by a) (changed_by a)
        (changed_on_delta_humanized a) (layer a)
  end.

(** [onAnnotationTextChange]: [data[target.name] = target.value] *)
Definition onAnnotationTextChange (name : textField) (v : string)
    (currentAnnotation : option AnnotationObject) : AnnotationObject :=
  setField name v (withRequired currentAnnotation).

(** [onJsonChange] *)
Definition onJsonChange (json : string)
    (currentAnnotation : option AnnotationObject) : AnnotationObject :=
  setField name_json_metadata json (withRequired currentAnnotation).

(** [currentAnnotation?.short_descr ?? ''] *)
Definition shortDescrOrEmpty (currentAnnotation : option AnnotationObject)
  : string :=
  match field short_descr currentAnnotation with
  | Some s => s
  | None => ""
  end.

(** [onDateChange]: each of the two picked dates is [None] when it is missing
    (or when [dates] itself is) and otherwise carries what
    [format('YYYY-MM-DD HH:mm')] returns for it. *)
Definition onDateChange (dates : option string * option string)
    (currentAnnotation : option AnnotationObject) : AnnotationObject :=
  let a :=
    match currentAnnotation with
    | Some a => a
    | None => emptyAnnotation
    end in
  let '(start, stop) :=
    match dates with
    | (Some d0, Some d1) => (d0, d1)
    | _ => ("", "")
    end in
  mkAnnotation (id a) (Some (shortDescrOrEmpty currentAnnotation))
    (Some start) (Some stop)
    (json_metadata a) (long_descr a) (created_by a) (changed_by a)
    (changed_on_delta_humanized a) (layer a).

(** The five [delete] statements of the edit branch of [onSave]. *)
Definition stripped (a : AnnotationObject) : AnnotationObject :=
  mkAnnotation None (short_descr a) (start_dttm a) (end_dttm a)
    (json_metadata a) (long_descr a) None None None None.

(** [validate]: the value it passes to [setDisableSave]. *)
Definition validate (currentAnnotation : option AnnotationObject) : bool :=
  if hasLength (field short_descr currentAnnotation)
     && hasLength (field start_dttm currentAnnotation)
     && hasLength (field end_dttm currentAnnotation)
  then false
  else true.

(** [hide]: the annotation it installs, and the call of [onHide]. *)
Definition hide (isEditMode : bool) (resource : option AnnotationObject)
  : option AnnotationObject * list effect :=
  (if isEditMode then resource else Some resetAnnotation, [onHide]).

(** [onSave] up to the request: the annotation afterwards (the edit branch
    deletes fields of the state object in place) and the hook call made. *)
Definition onSave (isEditMode : bool)
    (currentAnnotation : option AnnotationObject)
  : option AnnotationObject * option resourceCall :=
  if isEditMode then
    match currentAnnotation with
    | Some a =>
        if hasId a then
          match id a with
          | Some update_id =>
              (Some (stripped a), Some (updateResource update_id (stripped a)))
          | None => (currentAnnotation, None)
          end
        else (currentAnnotation, None)
    | None => (currentAnnotation, None)
    end
  else
    match currentAnnotation with
    | Some a => (currentAnnotation, Some (createResource a))
    | None => (currentAnnotation, None)
    end.

Section Modal.

Variable t : string -> string.

(** The [.then] handler of [onSave]: [response] is what the hook call
    resolved with, [hasOnAnnotationAdd] whether the callback prop was given
    and [resource] the hook's resource when [hide] runs. *)
Definition onSaved (isEditMode hasOnAnnotationAdd : bool)
    (resource : option AnnotationObject) (response : value)
    (currentAnnotation : option AnnotationObject)
  : option AnnotationObject * list effect :=
  if negb (truthy response) then (currentAnnotation, [])
  else
    let '(hidden, hiding) := hide isEditMode resource in
    (hidden,
     ((if hasOnAnnotationAdd then [onAnnotationAdd] else [])
        ++ hiding
        ++ [addSuccessToast
              (t (if isEditMode then "The annotation has been updated"
                  else "The annotation has been saved"))])%list).

(** A click on the primary button whose request is answered by [response]:
    the annotation and the effects afterwards, and the request made. *)
Definition save (isEditMode hasOnAnnotationAdd : bool)
    (resource : option AnnotationObject) (response : value)
    (currentAnnotation : option AnnotationObject)
  : option AnnotationObject * list effect * option resourceCall :=
  match onSave isEditMode currentAnnotation with
  | (mutated, Some call) =>
      (onSaved isEditMode hasOnAnnotationAdd resource response mutated,
       Some call)
  | (mutated, None) => (mutated, [], None)
  end.

End Modal.

(** What the form shows of the annotation. *)
Definition visible (currentAnnotation : option AnnotationObject)
  : option string * option string * option string * option string * option string :=
  (field short_descr currentAnnotation, field start_dttm currentAnnotation,
   field end_dttm currentAnnotation, field long_descr currentAnnotation,
   field json_metadata currentAnnotation).

(** *** The validation effect *)

(** The dependency list of the validation effect. *)
Definition validationDeps (currentAnnotation : option AnnotationObject)
  : option string * option string * option string :=
  match currentAnnotation with
  | Some a => (short_descr a, start_dttm a, end_dttm a)
  | None => (Some "", Some "", Some "")
  end.

Definition sameString (x y : option string) : bool :=
  match x, y with
  | Some a, Some b => String.eqb a b
  | None, None => true
  | _, _ => false
  end.

Definition sameDeps (x y : option string * option string * option string)
  : bool :=
  let '(a1, b1, c1) := x in
  let '(a2, b2, c2) := y in
  sameString a1 a2 && sameString b1 b2 && sameString c1 c2.

(** The component state the save button depends on; [validatedDeps] are the
    dependencies the validation effect last ran with. *)
Record modal : Type := mkModal {
  currentAnnotation : option AnnotationObject;
  disableSave : bool;
  validatedDeps : option string * option string * option string
}.

(** After the first render: [useState(true)], [useState(null)], and every
    effect has run once. *)
Definition mounted : modal :=
  mkModal None (validate None) (validationDeps None).

(** A render with annotation [current]: the validation effect runs when one
    of its dependencies changed. *)
Definition render (current : option AnnotationObject) (m : modal) : modal :=
  if sameDeps (validationDeps current) (validatedDeps m)
  then mkModal current (disableSave m) (validatedDeps m)
  else mkModal current (validate current) (validationDeps current).

(** The state changes of the modal. *)
Inductive change : Type :=
| TextChanged (name : textField) (v : string)
| JsonChanged (json : string)
| DateChanged (dates : option string * option string)
| Reset
| ResourceLoaded (resource : AnnotationObject)
| Hidden (isEditMode : bool) (resource : option AnnotationObject)
| SaveClicked (isEditMode : bool).

Definition apply (c : change) (m : modal) : modal :=
  let current := currentAnnotation m in
  match c with
  | TextChanged name v => render (Some (onAnnotationTextChange name v current)) m
  | JsonChanged json => render (Some (onJsonChange json current)) m
  | DateChanged dates => render (Some (onDateChange dates current)) m
  | Reset => render (Some resetAnnotation) m
  | ResourceLoaded resource => render (Some resource) m
  | Hidden isEditMode resource => render (fst (hide isEditMode resource)) m
  | SaveClicked isEditMode =>
      (* the deletes change the state object in place: no render follows *)
      mkModal (fst (onSave isEditMode current)) (disableSave m) (validatedDeps m)
  end.

(** The states of the modal after any sequence of changes. *)
Inductive reachable : modal -> Prop :=
| reachable_mounted : reachable mounted
| reachable_apply : forall c m, reachable m -> reachable (apply c m).

(** The save button reflects the last validation, and the last validation
    saw the current annotation. *)
Definition validated (m : modal) : Prop :=
  validatedDeps m = validationDeps (currentAnnotation m)
  /\ disableSave m = validate (currentAnnotation m).

End AnnotationModal.

(** ** The REST interface *)
Module RestApi.

(** Endpoints are handed to the client with or without the leading slash. *)
Definition absolute (e : string) : string :=
  match e with
  | String "/"%char _ => e
  | _ => "/" ++ e
  end.

(** The REST calls the specification lists for the excerpt:
    GET /api/v1/explore/,
    GET/POST/PUT /api/v1/annotation_layer/{id}/annotation,
    GET /api/v1/query/updated_since and
    GET/DELETE /api/v1/chart/{id}. *)
Inductive listed : request -> Prop :=
| listed_explore : forall e,
    absolute e = "/api/v1/explore/" ->
    listed (mkRequest GET e)
| listed_annotation : forall m layer e,
    In m [GET; POST; PUT] ->
    absolute e = "/api/v1/annotation_layer/" ++ layer ++ "/annotation" ->
    listed (mkRequest m e)
| listed_query : forall e,
    absolute e = "/api/v1/query/updated_since" ->
    listed (mkRequest GET e)
| listed_chart : forall m chart e,
    In m [GET; DELETE] ->
    absolute e = "/api/v1/chart/" ++ chart ->
    listed (mkRequest m e).

End RestApi.

(** ** Dashboard context of the explore page: [pages/Chart/index.tsx] *)
Module DashboardContext.

(** The own property [v[k]] of a value, [None] when it has none of that
    name. *)
Definition ownProperty (v : value) (k : string) : option value :=
  match v with
  | JObject fs => lookup k fs
  | JArray l =>
      if String.eqb k "length" then Some (JNum (Z.of_nat (List.length l)))
      else lookup k (indexed 0 l)
  | JString s =>
      if String.eqb k "length" then Some (JNum (Z.of_nat (String.length s)))
      else lookup k (indexed 0 (chars s))
  | _ => None
  end.

(** What the index [stored[pageId]] can give: a stored value, or a
    built-in the stored value inherits from its prototype chain (a method
    such as [constructor] or [toString], or the prototype itself under
    [__proto__]). *)
Inductive pageContext : Type :=
| Stored (v : value)
| Inherited (name : string).

(** [if (dashboardContext)]: a built-in is a function or an object. *)
Definition hasContext (c : pageContext) : bool :=
  match c with
  | Stored v => truthy v
  | Inherited _ => true
  end.

(** The properties the caller destructures from the context; a built-in
    has none of them. *)
Definition contextFields (c : pageContext) : value :=
  match c with
  | Stored v => v
  | Inherited _ => JObject []
  end.

Section Helpers.

(** Which names a value inherits from its prototype chain is the run-time's
    business and is kept abstract. *)
Variable inheritedProperty : value -> string -> bool.

(** [getDashboardPageContext]: [stored] is what
    [getItem(LocalStorageKeys.DashboardExploreContext, {})] returns.  The
    index [stored[pageId]] is the one plain read of the function that is not
    guarded: it throws on [null] and [undefined], which is [None] here; an
    own property shadows an inherited one. *)
Definition getDashboardPageContext (stored pageId : value)
  : option pageContext :=
  if negb (truthy pageId) then Some (Stored JNull)
  else if nullish stored then None
  else
    match ownProperty stored (to_string pageId) with
    | Some v => Some (Stored (js_or v JNull))
    | None =>
        if inheritedProperty stored (to_string pageId)
        then Some (Inherited (to_string pageId))
        else Some (Stored JNull)
    end.

(** Helpers of the dashboard code, outside the excerpt:
    [getFormDataWithExtraFilters] returns a form-data object and
    [getAppliedFilterValues] the applied filters of a chart. *)
Variable getFormDataWithExtraFilters : value -> props.
Variable getAppliedFilterValues : value -> value -> value.

(** The argument [getDashboardContextFormData] builds for
    [getFormDataWithExtraFilters]; [dashboardContext] holds the properties
    it destructures. *)
Definition extraFiltersArgs (dashboardContext sliceId : value) : props :=
  let activeFilters := dashboardContext ?. "activeFilters" in
  assign
    [("chart", JObject [("id", sliceId)]);
     ("filters",
      getAppliedFilterValues sliceId (dashboardContext ?. "filterBoxFilters"));
     ("nativeFilters", dashboardContext ?. "nativeFilters");
     ("chartConfiguration", dashboardContext ?. "chartConfiguration");
     ("dataMask", dashboardContext ?. "dataMask");
     ("colorScheme", dashboardContext ?. "colorScheme");
     ("labelsColor", dashboardContext ?. "labelsColor");
     ("labelsColorMap", dashboardContext ?. "labelsColorMap");
     ("sharedLabelsColors", dashboardContext ?. "sharedLabelsColors");
     ("sliceId", sliceId);
     ("allSliceIds", JArray [sliceId]);
     ("extraControls", JObject [])]
    (own (js_and activeFilters (JObject [("activeFilters", activeFilters)]))).

(** [getDashboardContextFormData]: [dashboardPageId] and [sliceIdParam] are
    what [getUrlParam] returns for the two URL parameters. *)
Definition getDashboardContextFormData (stored dashboardPageId sliceIdParam : value)
  : option value :=
  match getDashboardPageContext stored dashboardPageId with
  | None => None
  | Some dashboardContext =>
      if hasContext dashboardContext then
        let sliceId := js_or sliceIdParam (JNum 0) in
        let dashboardContextWithFilters :=
          getFormDataWithExtraFilters
            (JObject (extraFiltersArgs (contextFields dashboardContext) sliceId)) in
        Some (JObject (set "dashboardId"
                         (contextFields dashboardContext ?. "dashboardId")
                         dashboardContextWithFilters))
      else Some JNull
  end.

End Helpers.

End DashboardContext.

(** ** Text-area control: [TextAreaControl.tsx] *)
Module TextAreaControl.

(** The props the change handling reads: [onChange] is the identity of the
    callback ([None] when the prop is [undefined]) and [debounceDelay] a
    number or [null]. *)
Record controlProps : Type := mkProps {
  onChange : option nat;
  debounceDelay : value
}.

(** [this.debouncedOnChange]: the callback [debounce] wraps and its wait. *)
Definition debouncedOnChange : Type := option (nat * value).

(** What the control does with its callbacks. *)
Inductive call : Type :=
| viaDebounce (callback : nat) (wait : value) (finalValue : value)
| direct (callback : nat) (finalValue : value)
| cancel (callback : nat) (wait : value).

(** [constructor] *)
Definition constructor (props : controlProps) : debouncedOnChange :=
  if truthy (debounceDelay props) then
    match onChange props with
    | Some callback => Some (callback, debounceDelay props)
    | None => None
    end
  else None.

Definition sameCallback (a b : option nat) : bool :=
  match a, b with
  | Some x, Some y => Nat.eqb x y
  | None, None => true
  | _, _ => false
  end.

(** [componentDidUpdate(prevProps)] *)
Definition componentDidUpdate (prevProps props : controlProps)
    (debounced : debouncedOnChange) : debouncedOnChange * list call :=
  if negb (sameCallback (onChange props) (onChange prevProps))
     && truthy (debounceDelay props)
  then
    match onChange props with
    | Some callback =>
        (Some (callback, debounceDelay props),
         match debounced with
         | Some (old, wait) => [cancel old wait]
         | None => []
         end)
    | None => (debounced, [])
    end
  else (debounced, []).

(** [typeof value === 'object' ? value.target.value : value]; [None] when
    the read throws. *)
Definition finalValue (v : value) : option value :=
  match v with
  | JNull => None
  | JArray _ | JObject _ =>
      if nullish (v ?. "target") then None
      else Some (v ?. "target" ?. "value")
  | _ => Some v
  end.

(** [handleChange] *)
Definition handleChange (v : value) (props : controlProps)
    (debounced : debouncedOnChange) : option (list call) :=
  match finalValue v with
  | None => None
  | Some final =>
      match debounced with
      | Some (callback, wait) => Some [viaDebounce callback wait final]
      | None =>
          match onChange props with
          | Some callback => Some [direct callback final]
          | None => Some []
          end
      end
  end.

(** [componentWillUnmount] *)
Definition componentWillUnmount (debounced : debouncedOnChange) : list call :=
  match debounced with
  | Some (callback, wait) => [cancel callback wait]
  | None => []
  end.

(** The control after its props were replaced, one update after the other. *)
Definition update (st : controlProps * debouncedOnChange) (props : controlProps)
  : controlProps * debouncedOnChange :=
  (props, fst (componentDidUpdate (fst st) props (snd st))).

Definition mounted (props : controlProps) : controlProps * debouncedOnChange :=
  (props, constructor props).

(** The debounced handler wraps the callback of the current props. *)
Definition wrapsCurrent (st : controlProps * debouncedOnChange) : Prop :=
  exists callback wait,
    onChange (fst st) = Some callback /\ snd st = Some (callback, wait).

(** *** [renderEditor] *)

(** [inModal ? 40 : minLinesProp || 12] *)
Definition minLines (inModal : bool) (minLinesProp : value) : value :=
  if inModal then JNum 40 else js_or minLinesProp (JNum 12).

(** [inModal ? 1000 : maxLinesProp] *)
Definition maxLines (inModal : bool) (maxLinesProp : value) : value :=
  if inModal then JNum 1000 else maxLinesProp.

(** The [style] object of the code editor. *)
Definition editorStyle (inModal : bool)
    (theme minLinesProp textAreaStyles resize readOnly : value) : props :=
  let style :=
    assign
      [("border",
        if truthy (theme ?. "colorBorder")
        then JString ("1px solid " ++ to_string (theme ?. "colorBorder"))
        else JUndefined);
       ("minHeight", JString (to_string (minLines inModal minLinesProp) ++ "em"));
       ("width", JString "auto")]
      (own textAreaStyles) in
  let style := if truthy resize then set "resize" resize style else style in
  if truthy readOnly
  then set "backgroundColor" (theme ?. "colorBgMask") style
  else style.

End TextAreaControl.

(** * Properties *)

(** ** Property lists *)
Module JSFacts.

Lemma lookup_set (k k' : string) (v : value) (fs : props) :
  lookup k (set k' v fs) = if String.eqb k k' then Some v else lookup k fs.
Proof.
  induction fs as [|[k0 v0] rest IH]; simpl.
  - destruct (String.eqb k k'); reflexivity.
  - destruct (String.eqb_spec k' k0) as [->|Hne]; simpl.
    + destruct (String.eqb k k0); reflexivity.
    + rewrite IH.
      destruct (String.eqb_spec k k0) as [->|Hne'].
      * apply String.eqb_neq in Hne. rewrite String.eqb_sym, Hne. reflexivity.
      * reflexivity.
Qed.

Lemma lookup_remove (k k' : string) (fs : props) :
  lookup k (remove k' fs) = if String.eqb k k' then None else lookup k fs.
Proof.
  induction fs as [|[k0 v0] rest IH]; simpl.
  - destruct (String.eqb k k'); reflexivity.
  - destruct (String.eqb_spec k' k0) as [->|Hne]; simpl.
    + rewrite IH. destruct (String.eqb k k0); reflexivity.
    + rewrite IH.
      destruct (String.eqb_spec k k0) as [->|Hne'].
      * apply String.eqb_neq in Hne. rewrite String.eqb_sym, Hne. reflexivity.
      * reflexivity.
Qed.

Lemma lookup_canon (k : string) (fs : props) :
  lookup k (canon fs) = lookup k fs.
Proof.
  induction fs as [|[k0 v0] rest IH]; simpl; [reflexivity|].
  destruct (String.eqb k k0) eqn:E; [reflexivity|].
  rewrite lookup_remove, E. exact IH.
Qed.

Lemma lookup_In (k : string) (v : value) (fs : props) :
  lookup k fs = Some v -> In (k, v) fs.
Proof.
  induction fs as [|[k0 v0] rest IH]; simpl; [discriminate|].
  destruct (String.eqb_spec k k0) as [->|Hne]; intros H.
  - injection H as ->. now left.
  - right. now apply IH.
Qed.

Lemma In_remove (kv : string * value) (k : string) (fs : props) :
  In kv (remove k fs) -> In kv fs /\ fst kv <> k.
Proof.
  unfold remove. rewrite filter_In. intros [Hin Hk]. split; [exact Hin|].
  intros E. rewrite E, String.eqb_refl in Hk. discriminate.
Qed.

(** An entry of a canonical list is the one [lookup] finds. *)
Lemma In_canon_lookup (k : string) (v : value) (fs : props) :
  In (k, v) (canon fs) <-> lookup k fs = Some v.
Proof.
  induction fs as [|[k0 v0] rest IH]; simpl.
  - split; [tauto | discriminate].
  - split.
    + intros [H | H].
      * injection H as -> ->. now rewrite String.eqb_refl.
      * apply In_remove in H. destruct H as [Hin Hk]. simpl in Hk.
        apply String.eqb_neq in Hk. rewrite Hk. now apply IH.
    + destruct (String.eqb_spec k k0) as [->|Hne]; intros H.
      * injection H as ->. now left.
      * right. unfold remove. apply filter_In. split; [now apply IH|].
        simpl. apply String.eqb_neq in Hne. now rewrite String.eqb_sym, Hne.
Qed.

Lemma distinct_remove (k : string) (fs : props) :
  distinct fs -> distinct (remove k fs).
Proof.
  induction fs as [|[k0 v0] rest IH]; simpl; [trivial|].
  intros [Hk Hrest]. destruct (negb (String.eqb k k0)); simpl.
  - split; [|now apply IH].
    fold (remove k rest). rewrite lookup_remove, Hk.
    now destruct (String.eqb k0 k).
  - now apply IH.
Qed.

Lemma distinct_canon (fs : props) : distinct (canon fs).
Proof.
  induction fs as [|[k0 v0] rest IH]; simpl; [trivial|].
  split.
  - now rewrite lookup_remove, String.eqb_refl.
  - now apply distinct_remove.
Qed.

Lemma lookup_fold_set (source : props) :
  distinct source ->
  forall (target : props) (k : string),
    lookup k (fold_left (fun acc kv => set (fst kv) (snd kv) acc) source target)
    = match lookup k source with
      | Some v => Some v
      | None => lookup k target
      end.
Proof.
  induction source as [|[k0 v0] rest IH]; simpl; [reflexivity|].
  intros [Hk Hrest] target k. rewrite (IH Hrest), lookup_set.
  destruct (String.eqb_spec k k0) as [->|Hne]; [now rewrite Hk | reflexivity].
Qed.

(** [Object.assign]: the source's properties win over the target's. *)
Lemma lookup_assign (target source : props) (k : string) :
  lookup k (assign target source)
  = match lookup k source with
    | Some v => Some v
    | None => lookup k target
    end.
Proof.
  unfold assign. rewrite (lookup_fold_set _ (distinct_canon source)).
  now rewrite lookup_canon.
Qed.

Lemma lookup_spread_object (fs : props) (k : string) :
  lookup k (spread (JObject fs)) = lookup k fs.
Proof.
  unfold spread. rewrite lookup_assign. simpl own. rewrite lookup_canon.
  now destruct (lookup k fs).
Qed.

End JSFacts.

(** ** Query auto-refresh *)
Module QueryAutoRefreshFacts.
Import JSFacts QueryAutoRefresh.

Lemma allDigits_string_of_uint (d : Decimal.uint) :
  allDigits (NilEmpty.string_of_uint d) = true.
Proof. induction d; simpl; auto. Qed.

Lemma allDigits_index_key (i : nat) : allDigits (index_key i) = true.
Proof.
  unfold index_key, NilZero.string_of_uint.
  destruct (Nat.to_uint i) eqn:E; try reflexivity;
    rewrite <- E; apply allDigits_string_of_uint.
Qed.

(** A property name that is not a number is no index of an array or of a
    string. *)
Lemma lookup_indexed_none (k : string) (l : list value) :
  allDigits k = false -> forall i, lookup k (indexed i l) = None.
Proof.
  intros Hk. induction l as [|x rest IH]; intros i; simpl; [reflexivity|].
  destruct (String.eqb_spec k (index_key i)) as [->|_].
  - now rewrite allDigits_index_key in Hk.
  - apply IH.
Qed.

Section Facts.

Variable runningQueryStateList : list string.

Lemma values_object (fs : props) (q : value) :
  In q (values (JObject fs)) <-> exists k, lookup k fs = Some q.
Proof.
  unfold values. simpl own. rewrite in_map_iff. split.
  - intros [[k v] [<- Hin]]. exists k. now apply In_canon_lookup.
  - intros [k Hk]. exists (k, q). split; [reflexivity|].
    now apply In_canon_lookup.
Qed.

Lemma shouldCheckForQueries_object (fs : props) :
  shouldCheckForQueries runningQueryStateList (JObject fs) = true
  <-> exists k q, lookup k fs = Some q /\ isQueryRunning runningQueryStateList q = true.
Proof.
  unfold shouldCheckForQueries. rewrite existsb_exists. split.
  - intros [q [Hin Hq]]. apply values_object in Hin. destruct Hin as [k Hk].
    now exists k, q.
  - intros (k & q & Hk & Hq). exists q. split; [|exact Hq].
    apply values_object. now exists k.
Qed.

Lemma shouldCheckForQueries_false (fs : props) :
  (forall k q, lookup k fs = Some q -> isQueryRunning runningQueryStateList q = false) ->
  shouldCheckForQueries runningQueryStateList (JObject fs) = false.
Proof.
  intros Hall.
  destruct (shouldCheckForQueries runningQueryStateList (JObject fs)) eqn:E;
    [|reflexivity].
  apply shouldCheckForQueries_object in E. destruct E as (k & q & Hk & Hq).
  rewrite (Hall k q Hk) in Hq. discriminate.
Qed.

End Facts.

Example isQueryRunning_fixtures :
  isQueryRunning ["running"] runningQuery = true
  /\ isQueryRunning ["running"] successfulQuery = false
  /\ isQueryRunning ["running"] (JString "I Should Be An Object") = false
  /\ isQueryRunning ["running"]
       (JObject [("state", JObject [("badFormat", JBool true)])]) = false.
Proof. repeat split; reflexivity. Qed.

Example shouldCheckForQueries_fixtures :
  shouldCheckForQueries ["running"] runningQueries = true
  /\ shouldCheckForQueries ["running"] successfulQueries = false
  /\ shouldCheckForQueries ["running"]
       (JObject [("1234", JNull); ("23425", JString "hello world");
                 ("345", JArray []); ("57346", JUndefined)]) = false
  /\ shouldCheckForQueries ["running"]
       (JObject [("ryhMUZCGb", runningQuery); ("g324t", JNull)]) = true.
Proof. repeat split; reflexivity. Qed.

(** C3: [shouldCheckForQueries] is true exactly when a value of the
    dictionary is a query that [isQueryRunning] accepts; a dictionary holding
    one running query needs polling and one holding only queries that are
    not running needs none. *)
Theorem shouldCheckForQueries_iff_some_running
    (runningQueryStateList : list string) :
  (forall queries,
      shouldCheckForQueries runningQueryStateList queries = true
      <-> exists fs k q,
          queries = JObject fs /\ lookup k fs = Some q
          /\ isQueryRunning runningQueryStateList q = true)
  /\ (forall key q,
         isQueryRunning runningQueryStateList q = true ->
         shouldCheckForQueries runningQueryStateList (JObject [(key, q)]) = true)
  /\ (forall fs,
         (forall k q, lookup k fs = Some q ->
                      isQueryRunning runningQueryStateList q = false) ->
         shouldCheckForQueries runningQueryStateList (JObject fs) = false).
Proof.
  split; [|split].
  - intros queries. split.
    + intros H. destruct queries as [| | | | | |fs]; try discriminate.
      apply shouldCheckForQueries_object in H. destruct H as (k & q & Hk & Hq).
      now exists fs, k, q.
    + intros (fs & k & q & -> & Hk & Hq).
      apply shouldCheckForQueries_object. now exists k, q.
  - intros key q Hq. apply shouldCheckForQueries_object.
    exists key, q. simpl. now rewrite String.eqb_refl.
  - apply shouldCheckForQueries_false.
Qed.




(** C2: a tick on which no tracked query is running issues no request at
    all, whatever is outstanding, and leaves the poller's state alone. *)
Theorem tick_not_running_no_request
    (runningQueryStateList : list string) (queries : value)
    (outstanding : nat) :
  shouldCheckForQueries runningQueryStateList queries = false ->
  snd (fst (tick runningQueryStateList queries outstanding)) = []
  /\ fst (fst (tick runningQueryStateList queries outstanding)) = outstanding
  /\ forall furtherActions result,
      fst (poll runningQueryStateList furtherActions queries result) = [].
Proof.
  intros Hidle. unfold poll, tick. rewrite Hidle. simpl. auto.
Qed.

Lemma tick_not_running_no_request_witness :
  shouldCheckForQueries ["running"] successfulQueries = false
  /\ snd (fst (tick ["running"] successfulQueries 0)) = [].
Proof.
  split; [reflexivity|].
  apply (tick_not_running_no_request ["running"] successfulQueries 0).
  reflexivity.
Defined.

Section Outstanding.

Variable runningQueryStateList : list string.

Lemma step_outstanding (o : nat) (ev : event) (o' : nat) :
  step runningQueryStateList o ev o' -> o <= 1 -> o' <= 1.
Proof.
  intros Hstep Ho. inversion Hstep as [queries o0 | result o0 Hpos]; subst.
  - unfold tick.
    destruct (shouldCheckForQueries runningQueryStateList queries); simpl; [|exact Ho].
    destruct (Nat.eqb_spec o 0) as [->|Hne]; simpl; lia.
  - simpl. lia.
Qed.

Lemma reachable_outstanding (o : nat) :
  reachable runningQueryStateList o -> o <= 1.
Proof.
  induction 1 as [|o ev o' Hreach IH Hstep]; [lia|].
  exact (step_outstanding o ev o' Hstep IH).
Qed.

End Outstanding.

(** C6: in every state the poller can reach at most one status request is
    outstanding; a tick issues at most one request, and none while an
    earlier request is outstanding. *)
Theorem at_most_one_outstanding_request
    (runningQueryStateList : list string) (outstanding : nat) :
  reachable runningQueryStateList outstanding ->
  outstanding <= 1
  /\ forall queries,
      List.length (snd (fst (tick runningQueryStateList queries outstanding))) <= 1
      /\ (0 < outstanding ->
          snd (fst (tick runningQueryStateList queries outstanding)) = [])
      /\ fst (fst (tick runningQueryStateList queries outstanding)) <= 1.
Proof.
  intros Hreach.
  pose proof (reachable_outstanding _ _ Hreach) as Hle.
  split; [exact Hle|].
  intros queries.
  pose proof (step_outstanding runningQueryStateList _ _ _
                (step_tick runningQueryStateList queries outstanding) Hle) as Hnext.
  split; [|split; [|exact Hnext]].
  - unfold tick.
    destruct (shouldCheckForQueries runningQueryStateList queries); simpl; [|lia].
    destruct (Nat.eqb outstanding 0); simpl; lia.
  - intros Hpos. unfold tick.
    destruct (shouldCheckForQueries runningQueryStateList queries); simpl;
      [|reflexivity].
    destruct (Nat.eqb_spec outstanding 0) as [->|_]; [lia | reflexivity].
Qed.

Lemma at_most_one_outstanding_request_witness :
  reachable ["running"] 1
  /\ snd (fst (tick ["running"] runningQueries 1)) = [].
Proof.
  assert (Hreach : reachable ["running"] 1).
  { exact (reachable_step ["running"] 0 (Tick runningQueries) 1
             (reachable_mount ["running"])
             (step_tick ["running"] runningQueries 0)). }
  split; [exact Hreach|].
  destruct (at_most_one_outstanding_request ["running"] 1 Hreach) as [_ Htick].
  destruct (Htick runningQueries) as (_ & Hnone & _).
  exact (Hnone (le_n 1)).
Defined.

End QueryAutoRefreshFacts.

(** ** Explore page *)
Module ExplorePageFacts.
Import JSFacts ExplorePage.

Section Facts.

Variable t : string -> string.
Variable getClientErrorObject : value -> value.
Variable getFormDataWithDashboardContext : value -> value -> value -> value.

(** Every error [fetchExploreData] raises itself is an [Error] object. *)
Lemma fetchExploreData_throws_Error (rv : value) (fallback : props) (err : value) :
  fst (fetchExploreData t (Resolved rv) fallback) = Rejected err ->
  err = Error (failureMessage t rv).
Proof.
  unfold fetchExploreData.
  destruct (truthy (isValidResult rv)); [destruct (hasDatasetId rv)|];
    simpl; intros H; try discriminate; now injection H as <-.
Qed.

(** A rejected request rejects the fetch with the same reason and leaves the
    fallback object alone. *)
Lemma fetchExploreData_rejected (reason : value) (fallback : props) :
  fetchExploreData t (Rejected reason) fallback = (Rejected reason, fallback).
Proof. reflexivity. Qed.

(** An object is a reason [getClientErrorObject] settles on, and a truthy
    one. *)
Lemma object_settles (err : value) :
  (exists fs, err = JObject fs) ->
  clientErrorSettles err = true /\ truthy err = true.
Proof. intros [fs ->]. now split. Qed.

(** Only an object has [extra.datasource]. *)
Lemma datasource_error_is_object (err : value) :
  truthy (err ?. "extra" ?. "datasource") = true -> exists fs, err = JObject fs.
Proof.
  destruct err as [| | b | n | s | l | fs]; try discriminate.
  - unfold prop at 2. simpl String.eqb. cbv iota.
    now rewrite QueryAutoRefreshFacts.lookup_indexed_none.
  - unfold prop at 2. simpl String.eqb. cbv iota.
    now rewrite QueryAutoRefreshFacts.lookup_indexed_none.
  - intros _. now exists fs.
Qed.

(** What the handlers do with a truthy reason that names no datasource. *)
Lemma onRejected_plain (err chartId : value) (chartApi : outcome)
    (fallback : props) :
  clientErrorSettles err = true ->
  truthy err = true ->
  truthy (err ?. "extra" ?. "datasource") = false ->
  onRejected t getClientErrorObject err chartId chartApi fallback
  = ([], [addDangerToast (errorMesage t (getClientErrorObject err));
          hydrateExplore (JObject fallback)]).
Proof.
  intros Hsettles Herr Hds. unfold onRejected. now rewrite Hsettles, Herr, Hds.
Qed.

Lemma onRejected_toast (err chartId : value) (chartApi : outcome)
    (fallback : props) :
  clientErrorSettles err = true ->
  truthy err = true ->
  exists hydrated,
    snd (onRejected t getClientErrorObject err chartId chartApi fallback)
    = [addDangerToast (errorMesage t (getClientErrorObject err));
       hydrateExplore hydrated].
Proof.
  intros Hsettles Herr. unfold onRejected. rewrite Hsettles, Herr.
  simpl negb. cbv iota.
  destruct (truthy (err ?. "extra" ?. "datasource"));
    [destruct (truthy chartId);
     [destruct chartApi as [response|reason];
      [destruct (sliceOfChart err response)|]|]|];
    simpl; eauto.
Qed.

End Facts.

(** C4: when the payload has form data and a dataset but the dataset has no
    id, [fetchExploreData] throws an [Error] instead of returning the payload,
    after merging the payload's form data under the fallback's own and
    storing the payload's slice, when there is one, in the fallback object;
    the page then shows the danger toast and hydrates the explore view from
    that fallback object. *)
Theorem fetchExploreData_missing_dataset_falls_back
    (t : string -> string) (getClientErrorObject : value -> value)
    (getFormDataWithDashboardContext : value -> value -> value -> value)
    (initialized loadedBefore : bool)
    (saveAction dashboardContextFormData chartId rv : value)
    (chartApi : outcome) (fallback : props) :
  truthy (isValidResult rv) = true ->
  hasDatasetId rv = false ->
  negb initialized || truthy saveAction = true ->
  let fallback' := snd (fetchExploreData t (Resolved rv) fallback) in
  let page :=
    loadExplore t getClientErrorObject getFormDataWithDashboardContext
      initialized loadedBefore saveAction dashboardContextFormData chartId
      (Resolved rv) chartApi fallback in
  fst (fetchExploreData t (Resolved rv) fallback)
  = Rejected (Error (failureMessage t rv))
  /\ (forall k,
         lookup k (own (JObject fallback' ?. "form_data"))
         = match lookup k (own (JObject fallback ?. "form_data")) with
           | Some v => Some v
           | None => lookup k (own (rv ?. "result" ?. "form_data"))
           end)
  /\ JObject fallback' ?. "slice"
     = (if truthy (rv ?. "result" ?. "slice")
        then rv ?. "result" ?. "slice"
        else JObject fallback ?. "slice")
  /\ (forall k, k <> "form_data" -> k <> "slice" ->
                lookup k fallback' = lookup k fallback)
  /\ fallbackExploreInitialData page = fallback'
  /\ actions page
     = [addDangerToast
          (errorMesage t (getClientErrorObject (Error (failureMessage t rv))));
        hydrateExplore (JObject fallback')].
Proof.
  intros Hvalid Hnoid Hfetch fallback' page.
  assert (Hfetched :
            fetchExploreData t (Resolved rv) fallback
            = (Rejected (Error (failureMessage t rv)), fallback')).
  { unfold fallback', fetchExploreData. now rewrite Hvalid, Hnoid. }
  assert (Hform : lookup "form_data" fallback'
                  = Some (JObject (assign (spread (rv ?. "result" ?. "form_data"))
                                     (own (JObject fallback ?. "form_data"))))).
  { unfold fallback', fetchExploreData. rewrite Hvalid, Hnoid. simpl snd.
    destruct (truthy (rv ?. "result" ?. "slice"));
      repeat rewrite lookup_set; reflexivity. }
  split; [now rewrite Hfetched|].
  split.
  { intros k.
    change (JObject fallback' ?. "form_data")
      with (match lookup "form_data" fallback' with
            | Some x => x
            | None => JUndefined
            end).
    rewrite Hform.
    change (own (JObject ?fs)) with (canon fs).
    unfold spread. rewrite lookup_canon, !lookup_assign.
    destruct (lookup k (own (JObject fallback ?. "form_data"))); [reflexivity|].
    now destruct (lookup k (own (rv ?. "result" ?. "form_data"))). }
  split.
  { change (JObject fallback' ?. "slice")
      with (match lookup "slice" fallback' with
            | Some x => x
            | None => JUndefined
            end).
    unfold fallback', fetchExploreData. rewrite Hvalid, Hnoid. simpl snd.
    destruct (truthy (rv ?. "result" ?. "slice"));
      repeat rewrite lookup_set; reflexivity. }
  split.
  { intros k Hk1 Hk2. apply String.eqb_neq in Hk1, Hk2.
    unfold fallback', fetchExploreData. rewrite Hvalid, Hnoid. simpl snd.
    destruct (truthy (rv ?. "result" ?. "slice"));
      repeat rewrite lookup_set; now rewrite ?Hk1, ?Hk2. }
  unfold page, loadExplore. rewrite Hfetch, Hfetched.
  rewrite onRejected_plain by reflexivity.
  split; reflexivity.
Qed.

Lemma fetchExploreData_missing_dataset_falls_back_witness :
  let rv :=
    JObject [("result",
              JObject [("form_data", JObject [("viz_type", JString "table")]);
                       ("dataset", JObject [("name", JString "deleted")]);
                       ("slice", JObject [("slice_id", JNum 7)])])] in
  let fallback :=
    [("form_data", JObject [("datasource", JString "0__table")]);
     ("dataset", JObject [("id", JNum 0)])] in
  snd (fetchExploreData (fun s => s) (Resolved rv) fallback)
  = [("form_data",
      JObject [("viz_type", JString "table"); ("datasource", JString "0__table")]);
     ("dataset", JObject [("id", JNum 0)]);
     ("slice", JObject [("slice_id", JNum 7)])]
  /\ fst (fetchExploreData (fun s => s) (Resolved rv) fallback)
     = Rejected (Error "Failed to load chart data").
Proof.
  split; [reflexivity|].
  apply (fetchExploreData_missing_dataset_falls_back
           (fun s => s) (fun e => e) (fun fd _ _ => fd) false false
           JNull JNull JNull
           (JObject [("result",
              JObject [("form_data", JObject [("viz_type", JString "table")]);
                       ("dataset", JObject [("name", JString "deleted")]);
                       ("slice", JObject [("slice_id", JNum 7)])])])
           (Rejected JUndefined)
           [("form_data", JObject [("datasource", JString "0__table")]);
            ("dataset", JObject [("id", JNum 0)])]);
    reflexivity.
Defined.

(** C5: every rejection of the explore data fetch is reported.  The fetch
    rejects with the [Error] it throws itself or with the reason of the
    rejected request, an error object of the API client; the first action
    dispatched is then a danger toast whose message is the client error's
    [message], else its [error], else the default text, and the explore view
    is hydrated after it. *)
Theorem rejection_dispatches_danger_toast
    (t : string -> string) (getClientErrorObject : value -> value)
    (getFormDataWithDashboardContext : value -> value -> value -> value)
    (initialized loadedBefore : bool)
    (saveAction dashboardContextFormData chartId err : value)
    (exploreApi chartApi : outcome) (fallback : props) :
  negb initialized || truthy saveAction = true ->
  fst (fetchExploreData t exploreApi fallback) = Rejected err ->
  (forall reason, exploreApi = Rejected reason -> exists fs, reason = JObject fs) ->
  let clientError := getClientErrorObject err in
  (exists hydrated,
      actions
        (loadExplore t getClientErrorObject getFormDataWithDashboardContext
           initialized loadedBefore saveAction dashboardContextFormData
           chartId exploreApi chartApi fallback)
      = [addDangerToast (errorMesage t clientError); hydrateExplore hydrated])
  /\ errorMesage t clientError
     = (if truthy (clientError ?. "message") then clientError ?. "message"
        else if truthy (clientError ?. "error") then clientError ?. "error"
        else JString (t "Failed to load chart data."))
  /\ (forall rv, exploreApi = Resolved rv -> err = Error (failureMessage t rv))
  /\ (exists fs, err = JObject fs).
Proof.
  intros Hfetch Hrejected Hclient clientError.
  assert (Hobject : exists fs, err = JObject fs).
  { destruct exploreApi as [rv|reason].
    - rewrite (fetchExploreData_throws_Error t rv fallback err Hrejected).
      now eexists.
    - simpl in Hrejected. injection Hrejected as <-. now apply Hclient. }
  destruct (object_settles err Hobject) as [Hsettles Herr].
  split; [|split; [|split]].
  - unfold loadExplore. rewrite Hfetch.
    destruct (fetchExploreData t exploreApi fallback) as [settled fallback'].
    simpl in Hrejected. subst settled.
    destruct (onRejected_toast t getClientErrorObject err chartId chartApi
                fallback' Hsettles Herr) as [hydrated Hacts].
    destruct (onRejected t getClientErrorObject err chartId chartApi fallback')
      as [reqs acts].
    simpl in Hacts. subst acts. now exists hydrated.
  - unfold errorMesage, js_or.
    destruct (truthy (clientError ?. "message")) eqn:E1.
    + now rewrite E1.
    + reflexivity.
  - intros rv ->. now apply fetchExploreData_throws_Error with fallback.
  - exact Hobject.
Qed.

Lemma rejection_dispatches_danger_toast_witness :
  actions
    (loadExplore (fun s => s)
       (fun e => JObject [("error", e ?. "message")]) (fun fd _ _ => fd)
       false false JNull JNull JNull
       (Rejected (JObject [("message", JString "Dataset does not exist")]))
       (Rejected JUndefined) [])
  = [addDangerToast (JString "Dataset does not exist");
     hydrateExplore (JObject [])].
Proof.
  destruct (rejection_dispatches_danger_toast
              (fun s => s) (fun e => JObject [("error", e ?. "message")])
              (fun fd _ _ => fd) false false JNull JNull JNull
              (JObject [("message", JString "Dataset does not exist")])
              (Rejected (JObject [("message", JString "Dataset does not exist")]))
              (Rejected JUndefined) [] eq_refl eq_refl)
    as ([hydrated Hacts] & _).
  - intros reason [= <-]. now eexists.
  - rewrite Hacts. simpl in Hacts. injection Hacts as <-. reflexivity.
Defined.

End ExplorePageFacts.

(** ** Annotation modal *)
Module AnnotationModalFacts.
Import AnnotationModal.

Lemma sameString_eq (x y : option string) : sameString x y = true -> x = y.
Proof.
  destruct x as [a|], y as [b|]; simpl; try discriminate; [|reflexivity].
  intros H. apply String.eqb_eq in H. now subst.
Qed.

Lemma sameDeps_eq (x y : option string * option string * option string) :
  sameDeps x y = true -> x = y.
Proof.
  destruct x as [[a1 b1] c1], y as [[a2 b2] c2]. simpl.
  intros H. apply andb_prop in H. destruct H as [H Hc].
  apply andb_prop in H. destruct H as [Ha Hb].
  apply sameString_eq in Ha, Hb, Hc. now subst.
Qed.

(** [validate] only looks at the dependencies of the validation effect. *)
Lemma validate_deps (c1 c2 : option AnnotationObject) :
  validationDeps c1 = validationDeps c2 -> validate c1 = validate c2.
Proof.
  unfold validate, validationDeps, field.
  destruct c1 as [a1|], c2 as [a2|]; intros H; try reflexivity;
    injection H as H1 H2 H3;
    rewrite ?H1, ?H2, ?H3; try reflexivity;
    rewrite <- ?H1, <- ?H2, <- ?H3; reflexivity.
Qed.

(** The deletes of [onSave] leave the validated fields alone. *)
Lemma onSave_deps (isEditMode : bool) (current : option AnnotationObject) :
  validationDeps (fst (onSave isEditMode current)) = validationDeps current.
Proof.
  unfold onSave.
  destruct isEditMode, current as [a|]; simpl; try reflexivity.
  destruct (hasId a); [destruct (id a)|]; reflexivity.
Qed.

Lemma render_validated (current : option AnnotationObject) (m : modal) :
  validated m -> validated (render current m).
Proof.
  intros [Hdeps Hsave]. unfold render.
  destruct (sameDeps (validationDeps current) (validatedDeps m)) eqn:E.
  - apply sameDeps_eq in E. split; simpl; [now symmetry|].
    rewrite Hsave. apply validate_deps. now rewrite <- Hdeps.
  - split; reflexivity.
Qed.

Lemma reachable_validated (m : modal) : reachable m -> validated m.
Proof.
  induction 1 as [|c m Hreach IH].
  - split; reflexivity.
  - destruct c; simpl; try now apply render_validated.
    destruct IH as [Hdeps Hsave]. split; simpl.
    + now rewrite onSave_deps.
    + rewrite Hsave. apply validate_deps. now rewrite onSave_deps.
Qed.

Lemma hasLength_true (x : option string) :
  hasLength x = true <-> exists s, x = Some s /\ s <> "".
Proof.
  destruct x as [s|]; simpl.
  - rewrite negb_true_iff, String.eqb_neq. split.
    + intros H. now exists s.
    + intros (s' & [= <-] & H). exact H.
  - split; [discriminate | intros (s & H & _); discriminate].
Qed.

(** C9: in every state of the modal the primary button is enabled exactly
    when the annotation's [short_descr], [start_dttm] and [end_dttm] are all
    non-empty strings, and disabled when one of them is empty or absent. *)
Theorem disableSave_iff_required_field_missing (m : modal) :
  reachable m ->
  (disableSave m = false
   <-> (exists s, field short_descr (currentAnnotation m) = Some s /\ s <> "")
       /\ (exists s, field start_dttm (currentAnnotation m) = Some s /\ s <> "")
       /\ (exists s, field end_dttm (currentAnnotation m) = Some s /\ s <> ""))
  /\ (disableSave m = true
      <-> hasLength (field short_descr (currentAnnotation m)) = false
          \/ hasLength (field start_dttm (currentAnnotation m)) = false
          \/ hasLength (field end_dttm (currentAnnotation m)) = false).
Proof.
  intros Hreach. destruct (reachable_validated m Hreach) as [_ ->].
  unfold validate. rewrite <- !hasLength_true.
  destruct (hasLength (field short_descr (currentAnnotation m))),
    (hasLength (field start_dttm (currentAnnotation m))),
    (hasLength (field end_dttm (currentAnnotation m))); simpl;
    intuition discriminate.
Qed.

Lemma disableSave_iff_required_field_missing_witness :
  let m :=
    apply (DateChanged (Some "2024-01-01 00:00", Some "2024-01-02 00:00"))
      (apply (TextChanged name_short_descr "Launch") (apply Reset mounted)) in
  reachable m
  /\ disableSave m = false
  /\ disableSave (apply (TextChanged name_short_descr "") m) = true.
Proof.
  set (m0 := apply (TextChanged name_short_descr "Launch") (apply Reset mounted)).
  set (m := apply (DateChanged (Some "2024-01-01 00:00", Some "2024-01-02 00:00")) m0).
  assert (Hreach : reachable m).
  { repeat apply reachable_apply. apply reachable_mounted. }
  cbv zeta. split; [exact Hreach|]. split; [|reflexivity].
  apply (disableSave_iff_required_field_missing m Hreach).
  repeat split; eexists; (split; [reflexivity | discriminate]).
Defined.

(** C10: when the hook call of [onSave] resolves with a falsy response
    nothing follows: no success toast, no [onAnnotationAdd], no [onHide], and
    the form shows what it showed; on a truthy response the callback (when
    given), the hiding and the success toast follow, in this order; and the
    payload of an update has [id], [created_by], [changed_by],
    [changed_on_delta_humanized] and [layer] removed, the other fields being
    those of the annotation that was edited. *)
Theorem onSave_response_handling
    (t : string -> string) (isEditMode hasOnAnnotationAdd : bool)
    (resource : option AnnotationObject) (response : value)
    (current : option AnnotationObject) :
  let saved := save t isEditMode hasOnAnnotationAdd resource response current in
  (truthy response = false ->
   snd (fst saved) = []
   /\ visible (fst (fst saved)) = visible current)
  /\ (forall call,
         snd saved = Some call ->
         truthy response = true ->
         snd (fst saved)
         = ((if hasOnAnnotationAdd then [onAnnotationAdd] else [])
              ++ [onHide;
                  addSuccessToast
                    (t (if isEditMode then "The annotation has been updated"
                        else "The annotation has been saved"))])%list
         /\ fst (fst saved) = (if isEditMode then resource else Some resetAnnotation))
  /\ (snd (fst saved) <> [] -> truthy response = true /\ snd saved <> None)
  /\ (forall update_id payload,
         snd saved = Some (updateResource update_id payload) ->
         isEditMode = true
         /\ (exists a, current = Some a /\ id a = Some update_id
                       /\ update_id <> 0%Z /\ payload = stripped a)
         /\ id payload = None /\ created_by payload = None
         /\ changed_by payload = None
         /\ changed_on_delta_humanized payload = None
         /\ layer payload = None
         /\ visible (Some payload) = visible current)
  /\ (forall payload,
         snd saved = Some (createResource payload) ->
         isEditMode = false /\ current = Some payload).
Proof.
  unfold save, onSave, onSaved, hide.
  destruct isEditMode, current as [a|]; simpl.
  1: destruct (hasId a) eqn:Hid; [destruct (id a) as [n|] eqn:Hn|]; simpl.
  all: destruct (truthy response) eqn:Hresp; simpl.
  all: repeat match goal with
         | |- _ /\ _ => split
         | |- _ -> _ => intro
         | |- forall _, _ => intro
         | H : Some _ = Some _ |- _ => injection H as ? ?
         | H : Some _ = Some _ |- _ => injection H as ?
         end.
  all: subst; try discriminate; try congruence; try reflexivity.
  all: exists a; repeat split; auto;
    unfold hasId in Hid; rewrite Hn in Hid; intros ->; discriminate.
Qed.

Example onSave_error_keeps_modal :
  let current :=
    Some (mkAnnotation (Some 12%Z) (Some "Launch") (Some "2024-01-01 00:00")
            (Some "2024-01-02 00:00") (Some "{}") (Some "") (Some JNull)
            (Some JNull) (Some "a day ago") (Some (JNum 3))) in
  save (fun s => s) true true None JUndefined current
  = (Some (mkAnnotation None (Some "Launch") (Some "2024-01-01 00:00")
             (Some "2024-01-02 00:00") (Some "{}") (Some "") None None None None),
     [],
     Some (updateResource 12
             (mkAnnotation None (Some "Launch") (Some "2024-01-01 00:00")
                (Some "2024-01-02 00:00") (Some "{}") (Some "") None None None None))).
Proof. reflexivity. Qed.

Example onSave_success_hides_modal :
  snd (fst (save (fun s => s) false true None (JNum 5) (Some resetAnnotation)))
  = [onAnnotationAdd; onHide; addSuccessToast "The annotation has been saved"].
Proof. reflexivity. Qed.

End AnnotationModalFacts.

(** ** REST calls *)
Module RestApiFacts.
Import RestApi ExplorePage.

Section Calls.

Variable t : string -> string.
Variable getClientErrorObject : value -> value.


End Calls.






End RestApiFacts.

(** ** Explore page: further properties *)
Module ExplorePageMore.
Import JSFacts ExplorePage.

Lemma lookup_spread (v : value) (k : string) :
  lookup k (spread v) = lookup k (own v).
Proof.
  unfold spread. rewrite lookup_assign. now destruct (lookup k (own v)).
Qed.

Lemma prop_object (fs : props) (k : string) :
  JObject fs ?. k
  = match lookup k fs with Some x => x | None => JUndefined end.
Proof. reflexivity. Qed.

Section Fetch.

Variable t : string -> string.

(** The fallback object changes in the missing-dataset case only. *)
Lemma fetchExploreData_fallback_cases (api : outcome) (fallback : props) :
  snd (fetchExploreData t api fallback) = fallback
  \/ exists rv,
      api = Resolved rv
      /\ truthy (isValidResult rv) = true
      /\ hasDatasetId rv = false
      /\ snd (fetchExploreData t api fallback)
         = (let fallback1 :=
              set "form_data"
                (JObject (assign (spread (rv ?. "result" ?. "form_data"))
                            (own (JObject fallback ?. "form_data"))))
                fallback in
            if truthy (rv ?. "result" ?. "slice")
            then set "slice" (rv ?. "result" ?. "slice") fallback1
            else fallback1).
Proof.
  destruct api as [rv|reason]; [|now left].
  unfold fetchExploreData.
  destruct (truthy (isValidResult rv)) eqn:Hvalid; [|now left].
  destruct (hasDatasetId rv) eqn:Hid; [now left|].
  right. exists rv. repeat split; auto.
Qed.

Lemma fetchExploreData_other_keys (api : outcome) (fallback : props)
    (k : string) :
  k <> "form_data" -> k <> "slice" ->
  lookup k (snd (fetchExploreData t api fallback)) = lookup k fallback.
Proof.
  intros Hk1 Hk2. apply String.eqb_neq in Hk1, Hk2.
  destruct (fetchExploreData_fallback_cases api fallback)
    as [-> | (rv & _ & _ & _ & ->)]; [reflexivity|].
  destruct (truthy (rv ?. "result" ?. "slice"));
    repeat rewrite lookup_set; now rewrite ?Hk1, ?Hk2.
Qed.

Lemma fetchExploreData_form_data_kept (api : outcome) (fallback : props)
    (k : string) (v : value) :
  lookup k (own (JObject fallback ?. "form_data")) = Some v ->
  lookup k (own (JObject (snd (fetchExploreData t api fallback)) ?. "form_data"))
  = Some v.
Proof.
  intros Hk.
  destruct (fetchExploreData_fallback_cases api fallback)
    as [-> | (rv & _ & _ & _ & ->)]; [exact Hk|].
  rewrite prop_object.
  assert (Hform :
            lookup "form_data"
              (if truthy (rv ?. "result" ?. "slice")
               then set "slice" (rv ?. "result" ?. "slice")
                      (set "form_data"
                         (JObject (assign (spread (rv ?. "result" ?. "form_data"))
                                     (own (JObject fallback ?. "form_data"))))
                         fallback)
               else set "form_data"
                      (JObject (assign (spread (rv ?. "result" ?. "form_data"))
                                  (own (JObject fallback ?. "form_data"))))
                      fallback)
            = Some (JObject (assign (spread (rv ?. "result" ?. "form_data"))
                               (own (JObject fallback ?. "form_data"))))).
  { destruct (truthy (rv ?. "result" ?. "slice"));
      repeat rewrite lookup_set; reflexivity. }
  cbv zeta. rewrite Hform.
  change (own (JObject ?fs)) with (canon fs).
  now rewrite lookup_canon, lookup_assign, Hk.
Qed.

End Fetch.

(** X1: [fetchExploreData] resolves exactly when the request resolved with a
    valid payload whose dataset has an id, and then with that very payload; a
    rejected request is passed on with its reason; the fallback object is
    only ever changed in the valid-payload-without-dataset-id case, and then
    only in its [form_data] and [slice]. *)
Theorem fetchExploreData_resolves_iff
    (t : string -> string) (api : outcome) (fallback : props) :
  (forall rv,
      fst (fetchExploreData t api fallback) = Resolved rv
      <-> api = Resolved rv
          /\ truthy (isValidResult rv) = true /\ hasDatasetId rv = true)
  /\ (forall reason,
         api = Rejected reason ->
         fetchExploreData t api fallback = (Rejected reason, fallback))
  /\ (snd (fetchExploreData t api fallback) <> fallback ->
      exists rv, api = Resolved rv
                 /\ truthy (isValidResult rv) = true
                 /\ hasDatasetId rv = false)
  /\ (forall k, k <> "form_data" -> k <> "slice" ->
                lookup k (snd (fetchExploreData t api fallback))
                = lookup k fallback).
Proof.
  split; [|split; [|split]].
  - intros rv. unfold fetchExploreData. destruct api as [rv'|reason].
    + destruct (truthy (isValidResult rv')) eqn:Hvalid;
        [destruct (hasDatasetId rv') eqn:Hid|]; simpl; split;
        try discriminate.
      * intros [= <-]. auto.
      * intros ([= <-] & _ & _). reflexivity.
      * intros ([= <-] & _ & H). congruence.
      * intros ([= <-] & H & _). congruence.
    + simpl. split; [discriminate | intros ([=] & _)].
  - intros reason ->. reflexivity.
  - intros Hchanged.
    destruct (fetchExploreData_fallback_cases t api fallback)
      as [Hsame | (rv & Hapi & Hvalid & Hid & _)]; [now destruct Hchanged|].
    now exists rv.
  - apply fetchExploreData_other_keys.
Qed.

(** X2: a value the fallback's [form_data] holds under some key is kept
    under that key by every later run of [fetchExploreData], however the
    requests settle. *)
Theorem fallback_form_data_is_kept
    (t : string -> string) (apis : list outcome) (fallback : props)
    (k : string) (v : value) :
  lookup k (own (JObject fallback ?. "form_data")) = Some v ->
  lookup k
    (own (JObject (fold_left (fun fb api => snd (fetchExploreData t api fb))
                     apis fallback) ?. "form_data"))
  = Some v.
Proof.
  revert fallback. induction apis as [|api rest IH]; intros fallback Hk.
  - exact Hk.
  - simpl. apply IH. now apply fetchExploreData_form_data_kept.
Qed.

Lemma fallback_form_data_is_kept_witness :
  let deleted (viz : string) :=
    Resolved
      (JObject [("result",
                 JObject [("form_data",
                           JObject [("viz_type", JString viz);
                                    ("datasource", JString "9__table")]);
                          ("dataset", JObject [])])]) in
  lookup "datasource"
    (own (JObject
            (fold_left (fun fb api => snd (fetchExploreData (fun s => s) api fb))
               [deleted "table"; Rejected JNull; deleted "pie"]
               [("form_data", JObject [("datasource", JString "0__table")])])
          ?. "form_data"))
  = Some (JString "0__table").
Proof.
  cbv zeta.
  apply (fallback_form_data_is_kept (fun s => s)).
  reflexivity.
Defined.

(** X3: one run of the loading effect.  When reading the dashboard context
    throws, the run stops there.  Otherwise it sets the source of the label
    colour map to [Explore] and dispatches nothing (it did not fetch, or the
    fetch was rejected with a reason [getClientErrorObject] does not settle
    on or a falsy one), a single [hydrateExplore] (the fetch resolved), or a
    danger toast followed by a single [hydrateExplore] (the fetch was
    rejected with a truthy reason the client error settles on); whenever it
    fetched, the page ends loaded and initialised; when it did not, nothing
    is requested and the fallback object and the two flags are as before. *)
Theorem runEffect_dispatches_one_hydrate
    (t : string -> string) (getClientErrorObject : value -> value)
    (getFormDataWithDashboardContext : value -> value -> value -> value)
    (initialized loadedBefore : bool)
    (saveAction : value) (dashboardContext : option value) (chartId : value)
    (exploreApi chartApi : outcome) (fallback : props) :
  let fetching := negb initialized || truthy saveAction in
  let settled := fst (fetchExploreData t exploreApi fallback) in
  match
    runEffect t getClientErrorObject getFormDataWithDashboardContext
      initialized loadedBefore saveAction dashboardContext chartId
      exploreApi chartApi fallback
  with
  | None => dashboardContext = None
  | Some page =>
      dashboardContext <> None
      /\ labelsColorMapSource page = Explore
      /\ ((actions page = []
           /\ (fetching = false
               \/ exists err,
                   settled = Rejected err
                   /\ (clientErrorSettles err = false \/ truthy err = false)))
          \/ (exists payload,
                 actions page = [hydrateExplore payload]
                 /\ fetching = true /\ exists rv, settled = Resolved rv)
          \/ (exists message payload,
                 actions page = [addDangerToast message; hydrateExplore payload]
                 /\ fetching = true
                 /\ exists err,
                     settled = Rejected err
                     /\ clientErrorSettles err = true /\ truthy err = true))
      /\ (fetching = true ->
          isLoaded page = true /\ isExploreInitialized page = true
          /\ fallbackExploreInitialData page
             = snd (fetchExploreData t exploreApi fallback))
      /\ (fetching = false ->
          requests page = [] /\ actions page = []
          /\ fallbackExploreInitialData page = fallback
          /\ isLoaded page = loadedBefore
          /\ isExploreInitialized page = initialized)
  end.
Proof.
  intros fetching settled. unfold runEffect.
  destruct dashboardContext as [dashboardContextFormData|]; [|reflexivity].
  split; [discriminate|].
  unfold settled, loadExplore. fold fetching. destruct fetching.
  2:{ simpl. split; [reflexivity|]. split; [left; auto|].
      split; [discriminate | auto]. }
  destruct (fetchExploreData t exploreApi fallback) as [[rv|err] fallback'];
    simpl fst; simpl snd.
  - simpl. split; [reflexivity|]. split; [|split; [auto | discriminate]].
    right; left. unfold onFetched. eexists. repeat split. now exists rv.
  - destruct (clientErrorSettles err) eqn:Hsettles.
    + destruct (truthy err) eqn:Herr.
      * destruct (ExplorePageFacts.onRejected_toast t getClientErrorObject err
                    chartId chartApi fallback' Hsettles Herr)
          as [hydrated Hacts].
        destruct (onRejected t getClientErrorObject err chartId chartApi
                    fallback') as [reqs acts].
        cbn [snd] in Hacts. subst acts. simpl.
        split; [reflexivity|]. split; [|split; [auto | discriminate]].
        right; right. do 2 eexists. repeat split. now exists err.
      * unfold onRejected. rewrite Hsettles, Herr. simpl.
        split; [reflexivity|]. split; [|split; [auto | discriminate]].
        left. split; [reflexivity|]. right. exists err. auto.
    + unfold onRejected. rewrite Hsettles. simpl.
      split; [reflexivity|]. split; [|split; [auto | discriminate]].
      left. split; [reflexivity|]. right. exists err. auto.
Qed.

(** X4: on a successful fetch the effect asks for nothing but the explore
    data, leaves the fallback object alone and hydrates from the payload's
    result, with [form_data] replaced by the merge with the dashboard context
    when there is one, [saveAction] set to the URL's, and every other
    property of the result as the server sent it. *)
Theorem loadExplore_success_payload
    (t : string -> string) (getClientErrorObject : value -> value)
    (getFormDataWithDashboardContext : value -> value -> value -> value)
    (initialized loadedBefore : bool)
    (saveAction dashboardContextFormData chartId rv : value)
    (chartApi : outcome) (fallback : props) :
  negb initialized || truthy saveAction = true ->
  truthy (isValidResult rv) = true ->
  hasDatasetId rv = true ->
  let page :=
    loadExplore t getClientErrorObject getFormDataWithDashboardContext
      initialized loadedBefore saveAction dashboardContextFormData chartId
      (Resolved rv) chartApi fallback in
  requests page = [exploreRequest]
  /\ fallbackExploreInitialData page = fallback
  /\ exists payload,
      actions page = [hydrateExplore (JObject payload)]
      /\ lookup "saveAction" payload = Some saveAction
      /\ lookup "form_data" payload
         = Some (if truthy dashboardContextFormData
                 then getFormDataWithDashboardContext
                        (rv ?. "result" ?. "form_data")
                        dashboardContextFormData saveAction
                 else rv ?. "result" ?. "form_data")
      /\ forall k, k <> "form_data" -> k <> "saveAction" ->
                   lookup k payload = lookup k (own (rv ?. "result")).
Proof.
  intros Hfetch Hvalid Hid page. unfold page, loadExplore, fetchExploreData.
  rewrite Hfetch, Hvalid, Hid. simpl.
  split; [reflexivity|]. split; [reflexivity|].
  unfold onFetched. eexists. split; [reflexivity|].
  split; [|split].
  - now rewrite lookup_set.
  - now rewrite !lookup_set.
  - intros k Hk1 Hk2. apply String.eqb_neq in Hk1, Hk2.
    now rewrite !lookup_set, Hk1, Hk2, lookup_spread.
Qed.

Lemma loadExplore_success_payload_witness :
  let page :=
    loadExplore (fun s => s) (fun e => e) (fun fd ctx _ => ctx) false false
      (JString "overwrite") JNull JNull
      (Resolved
         (JObject [("result",
                    JObject [("form_data", JObject [("viz_type", JString "pie")]);
                             ("dataset", JObject [("id", JNum 0)]);
                             ("saveAction", JString "stale")])]))
      (Rejected JUndefined) [] in
  actions page
  = [hydrateExplore
       (JObject [("form_data", JObject [("viz_type", JString "pie")]);
                 ("dataset", JObject [("id", JNum 0)]);
                 ("saveAction", JString "overwrite")])]
  /\ requests page = [exploreRequest].
Proof.
  cbv zeta. split; [reflexivity|].
  apply (loadExplore_success_payload (fun s => s) (fun e => e)
           (fun fd ctx _ => ctx) false false
           (JString "overwrite") JNull JNull
           (JObject [("result",
                      JObject [("form_data", JObject [("viz_type", JString "pie")]);
                               ("dataset", JObject [("id", JNum 0)]);
                               ("saveAction", JString "stale")])])
           (Rejected JUndefined) [] eq_refl eq_refl eq_refl).
Defined.

Section Rejected.

Variable t : string -> string.
Variable getClientErrorObject : value -> value.

Lemma exploreDataFor_dataset (err : value) (fallback : props) :
  lookup "dataset" (exploreDataFor err fallback)
  = Some (JObject
            (set "extra" (JObject [("error", err)])
               (set "name" (err ?. "extra" ?. "datasource_name")
                  (set "id" (err ?. "extra" ?. "datasource")
                     (spread (JObject fallback ?. "dataset")))))).
Proof. unfold exploreDataFor. now rewrite lookup_set. Qed.

Lemma exploreDataFor_other (err : value) (fallback : props) (k : string) :
  k <> "dataset" -> lookup k (exploreDataFor err fallback) = lookup k fallback.
Proof.
  intros Hk. apply String.eqb_neq in Hk. unfold exploreDataFor.
  now rewrite lookup_set, Hk, lookup_spread_object.
Qed.

(** What is hydrated on the path of an error that names its datasource:
    the explore data, with or without the slice of the chart. *)
Lemma onRejected_datasource (err chartId : value) (chartApi : outcome)
    (fallback : props) :
  truthy err = true ->
  truthy (err ?. "extra" ?. "datasource") = true ->
  exists payload,
    snd (onRejected t getClientErrorObject err chartId chartApi fallback)
    = [addDangerToast (errorMesage t (getClientErrorObject err));
       hydrateExplore (JObject payload)]
    /\ (payload = exploreDataFor err fallback
        \/ truthy chartId = true
           /\ exists response slice,
               chartApi = Resolved response
               /\ sliceOfChart err response = Some slice
               /\ payload
                  = set "slice" (JObject slice)
                      (spread (JObject (exploreDataFor err fallback)))).
Proof.
  intros Herr Hds.
  destruct (ExplorePageFacts.object_settles err
              (ExplorePageFacts.datasource_error_is_object err Hds))
    as [Hsettles _].
  unfold onRejected. rewrite Hsettles, Herr, Hds. simpl negb. cbv iota.
  destruct (truthy chartId) eqn:Hchart; simpl.
  - destruct chartApi as [response|reason].
    + destruct (sliceOfChart err response) as [slice|] eqn:Hslice.
      * eexists. split; [reflexivity|]. right. split; [reflexivity|].
        now exists response, slice.
      * eexists. split; [reflexivity|]. now left.
    + eexists. split; [reflexivity|]. now left.
  - eexists. split; [reflexivity|]. now left.
Qed.

End Rejected.

(** X5: when the fetch fails with an error that names its datasource, the
    explore view is hydrated, after the toast, from the fallback data with
    the dataset's id and name taken from the error and the error itself
    attached to the dataset, whether or not the chart could be loaded; a
    slice is only added from a chart request that succeeded. *)
Theorem datasource_error_hydrates_named_dataset
    (t : string -> string) (getClientErrorObject : value -> value)
    (err chartId : value) (chartApi : outcome) (fallback : props) :
  truthy err = true ->
  truthy (err ?. "extra" ?. "datasource") = true ->
  exists payload,
    snd (onRejected t getClientErrorObject err chartId chartApi fallback)
    = [addDangerToast (errorMesage t (getClientErrorObject err));
       hydrateExplore (JObject payload)]
    /\ JObject payload ?. "dataset" ?. "id" = err ?. "extra" ?. "datasource"
    /\ JObject payload ?. "dataset" ?. "name"
       = err ?. "extra" ?. "datasource_name"
    /\ JObject payload ?. "dataset" ?. "extra" ?. "error" = err
    /\ (forall k, k <> "id" -> k <> "name" -> k <> "extra" ->
                  lookup k (own (JObject payload ?. "dataset"))
                  = lookup k (own (JObject fallback ?. "dataset")))
    /\ (forall k, k <> "dataset" -> k <> "slice" ->
                  lookup k payload = lookup k fallback)
    /\ (lookup "slice" payload <> lookup "slice" fallback ->
        truthy chartId = true
        /\ exists response slice,
            chartApi = Resolved response
            /\ sliceOfChart err response = Some slice
            /\ lookup "slice" payload = Some (JObject slice)).
Proof.
  intros Herr Hds.
  destruct (onRejected_datasource t getClientErrorObject err chartId chartApi
              fallback Herr Hds) as (payload & Hacts & Hpayload).
  exists payload. split; [exact Hacts|].
  assert (Hdataset :
            lookup "dataset" payload
            = Some (JObject
                      (set "extra" (JObject [("error", err)])
                         (set "name" (err ?. "extra" ?. "datasource_name")
                            (set "id" (err ?. "extra" ?. "datasource")
                               (spread (JObject fallback ?. "dataset"))))))).
  { destruct Hpayload as [-> | (_ & response & slice & _ & _ & ->)].
    - apply exploreDataFor_dataset.
    - rewrite lookup_set. simpl String.eqb. cbv iota.
      rewrite lookup_spread_object. apply exploreDataFor_dataset. }
  assert (Hother : forall k, k <> "dataset" -> k <> "slice" ->
                             lookup k payload = lookup k fallback).
  { intros k Hk1 Hk2.
    destruct Hpayload as [-> | (_ & response & slice & _ & _ & ->)].
    - now apply exploreDataFor_other.
    - apply String.eqb_neq in Hk2.
      rewrite lookup_set, Hk2, lookup_spread_object.
      now apply exploreDataFor_other. }
  rewrite (prop_object payload "dataset"), Hdataset.
  repeat match goal with |- _ /\ _ => split end.
  - rewrite prop_object, !lookup_set. reflexivity.
  - rewrite prop_object, !lookup_set. reflexivity.
  - rewrite prop_object, !lookup_set. reflexivity.
  - intros k Hk1 Hk2 Hk3. apply String.eqb_neq in Hk1, Hk2, Hk3.
    change (own (JObject ?fs)) with (canon fs) at 1.
    now rewrite lookup_canon, !lookup_set, Hk1, Hk2, Hk3, lookup_spread.
  - exact Hother.
  - intros Hslice.
    destruct Hpayload as [-> | (Hchart & response & slice & Hapi & Hs & ->)].
    + destruct Hslice. now apply exploreDataFor_other.
    + split; [exact Hchart|]. exists response, slice.
      repeat split; auto. now rewrite lookup_set.
Qed.

Lemma datasource_error_hydrates_named_dataset_witness :
  let err :=
    JObject [("message", JString "Dataset not found");
             ("extra", JObject [("datasource", JNum 42);
                                ("datasource_name", JString "births")])] in
  exists payload,
    snd (onRejected (fun s => s) (fun e => e) err JNull (Rejected JUndefined)
           [("dataset", JObject [("id", JNum 0); ("columns", JArray [])])])
    = [addDangerToast (JString "Dataset not found");
       hydrateExplore (JObject payload)]
    /\ JObject payload ?. "dataset" ?. "id" = JNum 42
    /\ JObject payload ?. "dataset" ?. "name" = JString "births".
Proof.
  cbv zeta.
  destruct (datasource_error_hydrates_named_dataset (fun s => s) (fun e => e)
              (JObject [("message", JString "Dataset not found");
                        ("extra", JObject [("datasource", JNum 42);
                                           ("datasource_name", JString "births")])])
              JNull (Rejected JUndefined)
              [("dataset", JObject [("id", JNum 0); ("columns", JArray [])])]
              eq_refl eq_refl) as (payload & Hacts & Hid & Hname & _).
  exists payload. split; [exact Hacts|]. split; [exact Hid | exact Hname].
Defined.

Lemma ownerIds_throws (owners : value) :
  ownerIds owners = None
  <-> (exists l, owners = JArray l /\ existsb nullish l = true)
      \/ (nullish owners = false /\ forall l, owners <> JArray l).
Proof.
  split.
  - destruct owners as [| | b | n | s | l | fs]; simpl; intros H;
      try discriminate;
      try (right; split; [reflexivity | discriminate]).
    left. exists l. split; [reflexivity|].
    now destruct (existsb nullish l).
  - intros [(l & -> & Hl) | [Hn Harr]].
    + simpl. now rewrite Hl.
    + destruct owners as [| | b | n | s | l | fs]; try discriminate;
        try reflexivity.
      now destruct (Harr l).
Qed.

(** X6: the slice built from the chart response.  Building it throws
    exactly when the response or its [result] is [null] or [undefined], or
    [owners] is neither absent nor an array, or an owner is [null] or
    [undefined]; in every other case a slice is built, and it carries the
    chart's id and url as [slice_id] and [slice_url], the owners' ids, the
    error's datasource name, never the chart's [form_data], [id] or [url],
    and every other property of the chart unchanged. *)
Theorem sliceOfChart_spec (err response : value) :
  let result := response ?. "result" in
  (sliceOfChart err response = None
   <-> nullish response = true \/ nullish result = true
       \/ (exists l, result ?. "owners" = JArray l /\ existsb nullish l = true)
       \/ (nullish (result ?. "owners") = false
           /\ forall l, result ?. "owners" <> JArray l))
  /\ (forall slice,
         sliceOfChart err response = Some slice ->
         lookup "slice_id" slice = Some (result ?. "id")
         /\ lookup "slice_url" slice = Some (result ?. "url")
         /\ lookup "datasource" slice
            = Some (err ?. "extra" ?. "datasource_name")
         /\ lookup "owners" slice
            = Some (match result ?. "owners" with
                    | JArray l => JArray (map (fun o => o ?. "id") l)
                    | _ => JUndefined
                    end)
         /\ lookup "form_data" slice = None
         /\ lookup "id" slice = None
         /\ lookup "url" slice = None
         /\ forall k,
             k <> "owners" -> k <> "slice_url" -> k <> "slice_id" ->
             k <> "datasource" -> k <> "form_data" -> k <> "id" ->
             k <> "url" ->
             lookup k slice = lookup k (own result)).
Proof.
  intros result. split.
  - unfold sliceOfChart. fold result.
    destruct (nullish response) eqn:Hresp; [split; auto|].
    destruct (nullish result) eqn:Hres; [split; auto|].
    destruct (ownerIds (result ?. "owners")) as [owners|] eqn:Howners.
    + split; [discriminate|].
      intros [H | [H | H]]; try discriminate.
      apply ownerIds_throws in H. congruence.
    + split; [|reflexivity]. intros _. right; right.
      now apply ownerIds_throws.
  - intros slice. unfold sliceOfChart. fold result.
    destruct (nullish response); [discriminate|].
    destruct (nullish result); [discriminate|].
    destruct (ownerIds (result ?. "owners")) as [owners|] eqn:Howners;
      [|discriminate].
    intros [= <-].
    repeat match goal with |- _ /\ _ => split end.
    + now rewrite !lookup_set.
    + now rewrite !lookup_set.
    + now rewrite !lookup_set.
    + rewrite lookup_set. simpl String.eqb. cbv iota. f_equal.
      destruct (result ?. "owners") as [| | b | n | s | l | fs];
        simpl in Howners; try discriminate; try now injection Howners.
      destruct (existsb nullish l); [discriminate | now injection Howners].
    + now rewrite !lookup_set, !lookup_remove.
    + now rewrite !lookup_set, !lookup_remove.
    + now rewrite !lookup_set, !lookup_remove.
    + intros k H1 H2 H3 H4 H5 H6 H7.
      apply String.eqb_neq in H1, H2, H3, H4, H5, H6, H7.
      now rewrite !lookup_set, !lookup_remove, H1, H2, H3, H4, H5, H6, H7,
        lookup_spread.
Qed.

End ExplorePageMore.

(** ** Dashboard context *)
Module DashboardContextFacts.
Import JSFacts DashboardContext.

Lemma own_falsy (v : value) : truthy v = false -> own v = [].
Proof.
  destruct v as [| | b | n | s | l | fs]; simpl; try reflexivity;
    try discriminate.
  intros H. apply negb_false_iff, String.eqb_eq in H. now subst.
Qed.

Lemma js_or_null (v : value) : js_or v JNull = JNull \/ truthy (js_or v JNull) = true.
Proof.
  unfold js_or. destruct (truthy v) eqn:E; [right; exact E | now left].
Qed.

(** X7: [getDashboardPageContext] gives [null] without a page id, whatever
    is stored; with a page id it throws exactly when the stored value is
    [null] or [undefined]; a stored truthy value is returned as it is, a
    stored falsy one as [null], an inherited built-in when nothing is stored
    under the page id but the stored value inherits a property of that name,
    and [null] when there is neither; so the result is [null] or truthy,
    never another falsy value. *)
Theorem getDashboardPageContext_null_or_truthy
    (inheritedProperty : value -> string -> bool) (stored pageId : value) :
  let context := getDashboardPageContext inheritedProperty stored pageId in
  (truthy pageId = false -> context = Some (Stored JNull))
  /\ (context = None <-> truthy pageId = true /\ nullish stored = true)
  /\ (forall dashboardContext,
         context = Some dashboardContext ->
         dashboardContext = Stored JNull \/ hasContext dashboardContext = true)
  /\ (truthy pageId = true -> nullish stored = false ->
      forall v,
        ownProperty stored (to_string pageId) = Some v ->
        context = Some (Stored (if truthy v then v else JNull)))
  /\ (truthy pageId = true -> nullish stored = false ->
      ownProperty stored (to_string pageId) = None ->
      context
      = Some (if inheritedProperty stored (to_string pageId)
              then Inherited (to_string pageId)
              else Stored JNull)).
Proof.
  intros context. unfold context, getDashboardPageContext.
  destruct (truthy pageId) eqn:Hpage; simpl.
  - destruct (nullish stored) eqn:Hstored.
    + repeat split; try discriminate; auto.
    + destruct (ownProperty stored (to_string pageId)) as [v|] eqn:Hown.
      * repeat split; try discriminate; auto.
        -- intros [_ [=]].
        -- intros ctx [= <-]. destruct (js_or_null v) as [-> | H]; auto.
        -- intros _ _ v' [= <-]. reflexivity.
      * destruct (inheritedProperty stored (to_string pageId));
          repeat split; try discriminate; auto;
          try (intros [_ [=]]); intros ctx [= <-]; auto.
  - repeat split; try discriminate; auto.
    + intros [[=] _].
    + intros ctx [= <-]. now left.
Qed.

(** X8: with a dashboard context, [getDashboardContextFormData] returns what
    [getFormDataWithExtraFilters] built with [dashboardId] set to the
    context's; the helper is asked for one chart, the slice id of the URL or
    0, in [chart.id], [sliceId] and [allSliceIds] alike, and is handed
    [activeFilters] only when the context has truthy ones; without a context
    the result is [null], and when reading the context throws so does the
    function. *)
Theorem getDashboardContextFormData_spec
    (inheritedProperty : value -> string -> bool)
    (getFormDataWithExtraFilters : value -> props)
    (getAppliedFilterValues : value -> value -> value)
    (stored dashboardPageId sliceIdParam : value) :
  let formData :=
    getDashboardContextFormData inheritedProperty getFormDataWithExtraFilters
      getAppliedFilterValues stored dashboardPageId sliceIdParam in
  let sliceId := if truthy sliceIdParam then sliceIdParam else JNum 0 in
  match getDashboardPageContext inheritedProperty stored dashboardPageId with
  | None => formData = None
  | Some dashboardContext =>
      let fields := contextFields dashboardContext in
      let args := extraFiltersArgs getAppliedFilterValues fields sliceId in
      (hasContext dashboardContext = false -> formData = Some JNull)
      /\ (hasContext dashboardContext = true ->
          exists fd,
            formData = Some (JObject fd)
            /\ lookup "dashboardId" fd = Some (fields ?. "dashboardId")
            /\ forall k, k <> "dashboardId" ->
                         lookup k fd
                         = lookup k (getFormDataWithExtraFilters (JObject args)))
      /\ lookup "chart" args = Some (JObject [("id", sliceId)])
      /\ lookup "sliceId" args = Some sliceId
      /\ lookup "allSliceIds" args = Some (JArray [sliceId])
      /\ lookup "activeFilters" args
         = (if truthy (fields ?. "activeFilters")
            then Some (fields ?. "activeFilters")
            else None)
  end.
Proof.
  intros formData sliceId. unfold formData, getDashboardContextFormData.
  destruct (getDashboardPageContext inheritedProperty stored dashboardPageId)
    as [dashboardContext|]; [|reflexivity].
  pose (fields := contextFields dashboardContext).
  pose (args := extraFiltersArgs getAppliedFilterValues fields sliceId).
  change (contextFields dashboardContext) with fields.
  change (extraFiltersArgs getAppliedFilterValues fields
            (js_or sliceIdParam (JNum 0))) with args.
  change (extraFiltersArgs getAppliedFilterValues fields sliceId) with args.
  assert (Hargs : forall k,
             String.eqb k "activeFilters" = false ->
             lookup k args
             = lookup k
                 [("chart", JObject [("id", sliceId)]);
                  ("filters",
                   getAppliedFilterValues sliceId (fields ?. "filterBoxFilters"));
                  ("nativeFilters", fields ?. "nativeFilters");
                  ("chartConfiguration", fields ?. "chartConfiguration");
                  ("dataMask", fields ?. "dataMask");
                  ("colorScheme", fields ?. "colorScheme");
                  ("labelsColor", fields ?. "labelsColor");
                  ("labelsColorMap", fields ?. "labelsColorMap");
                  ("sharedLabelsColors", fields ?. "sharedLabelsColors");
                  ("sliceId", sliceId);
                  ("allSliceIds", JArray [sliceId]);
                  ("extraControls", JObject [])]).
  { intros k Hk. unfold args, extraFiltersArgs. rewrite lookup_assign.
    unfold js_and.
    destruct (truthy (fields ?. "activeFilters")) eqn:Haf.
    - simpl own. simpl lookup at 1. now rewrite Hk.
    - now rewrite (own_falsy _ Haf). }
  repeat match goal with |- _ /\ _ => split end.
  - intros Hnone. now rewrite Hnone.
  - intros Hsome. rewrite Hsome. eexists. split; [reflexivity|]. split.
    + now rewrite lookup_set.
    + intros k Hk. apply String.eqb_neq in Hk. now rewrite lookup_set, Hk.
  - now rewrite Hargs.
  - now rewrite Hargs.
  - now rewrite Hargs.
  - unfold args, extraFiltersArgs. rewrite lookup_assign. unfold js_and.
    destruct (truthy (fields ?. "activeFilters")) eqn:Haf.
    + reflexivity.
    + now rewrite (own_falsy _ Haf).
Qed.

Example getDashboardContextFormData_stored :
  getDashboardContextFormData
    (fun _ name => String.eqb name "constructor")
    (fun args => own args) (fun _ filters => filters)
    (JObject [("page-1", JObject [("dashboardId", JNum 7);
                                  ("activeFilters", JObject [])])])
    (JString "page-1") JNull
  = Some (JObject [("chart", JObject [("id", JNum 0)]);
                   ("filters", JUndefined); ("nativeFilters", JUndefined);
                   ("chartConfiguration", JUndefined); ("dataMask", JUndefined);
                   ("colorScheme", JUndefined); ("labelsColor", JUndefined);
                   ("labelsColorMap", JUndefined);
                   ("sharedLabelsColors", JUndefined);
                   ("sliceId", JNum 0); ("allSliceIds", JArray [JNum 0]);
                   ("extraControls", JObject []);
                   ("activeFilters", JObject []);
                   ("dashboardId", JNum 7)]).
Proof. reflexivity. Qed.

Example getDashboardContextFormData_inherited :
  getDashboardPageContext (fun _ name => String.eqb name "constructor")
    (JObject []) (JString "constructor")
  = Some (Inherited "constructor")
  /\ getDashboardContextFormData
       (fun _ name => String.eqb name "constructor")
       (fun args => own args) (fun _ filters => filters)
       (JObject []) (JString "constructor") (JNum 5)
     = Some (JObject [("chart", JObject [("id", JNum 5)]);
                      ("filters", JUndefined); ("nativeFilters", JUndefined);
                      ("chartConfiguration", JUndefined);
                      ("dataMask", JUndefined);
                      ("colorScheme", JUndefined); ("labelsColor", JUndefined);
                      ("labelsColorMap", JUndefined);
                      ("sharedLabelsColors", JUndefined);
                      ("sliceId", JNum 5); ("allSliceIds", JArray [JNum 5]);
                      ("extraControls", JObject []);
                      ("dashboardId", JUndefined)]).
Proof. split; reflexivity. Qed.

End DashboardContextFacts.

(** ** Text-area control *)
Module TextAreaControlFacts.
Import JSFacts TextAreaControl.

Lemma sameCallback_eq (a b : option nat) : sameCallback a b = true -> a = b.
Proof.
  destruct a as [x|], b as [y|]; simpl; try discriminate; [|reflexivity].
  intros H. apply Nat.eqb_eq in H. now subst.
Qed.

Lemma update_wrapsCurrent (st : controlProps * debouncedOnChange)
    (props : controlProps) :
  truthy (debounceDelay props) = true ->
  onChange props <> None ->
  wrapsCurrent st ->
  wrapsCurrent (update st props).
Proof.
  intros Hdelay Hcb (callback & wait & Hcur & Hdeb).
  unfold wrapsCurrent, update, componentDidUpdate. simpl fst. rewrite Hdelay.
  destruct (onChange props) as [next|] eqn:Hnext; [|now destruct Hcb].
  destruct (sameCallback (Some next) (onChange (fst st))) eqn:Hsame; simpl.
  - apply sameCallback_eq in Hsame. rewrite Hcur in Hsame.
    injection Hsame as ->. now exists callback, wait.
  - now exists next, (debounceDelay props).
Qed.

Lemma last_cons {A : Type} (x : A) (l : list A) (d : A) :
  last (x :: l) d = last l x.
Proof.
  revert x d. induction l as [|y l IH]; intros x d; [reflexivity|].
  change (last (x :: y :: l) d) with (last (y :: l) d).
  now rewrite !IH.
Qed.

Lemma updates_wrapsCurrent (updates : list controlProps) :
  Forall (fun p => truthy (debounceDelay p) = true /\ onChange p <> None)
         updates ->
  forall st0,
    wrapsCurrent st0 ->
    wrapsCurrent (fold_left update updates st0)
    /\ fst (fold_left update updates st0) = last updates (fst st0).
Proof.
  induction 1 as [|p ps [Hdelay Hcb] Hrest IH]; intros st0 Hst0.
  - now split.
  - simpl fold_left.
    destruct (IH (update st0 p) (update_wrapsCurrent st0 p Hdelay Hcb Hst0))
      as [Hw Hl].
    split; [exact Hw|]. rewrite Hl. unfold update. simpl fst.
    now rewrite last_cons.
Qed.

(** X9: when every version of the props has a truthy [debounceDelay] and an
    [onChange], then after the mount and any number of updates the debounced
    handler wraps the [onChange] of the current props, and a change is
    delivered through it and never directly. *)
Theorem debounced_wraps_current_onChange
    (p0 : controlProps) (updates : list controlProps) :
  Forall (fun p => truthy (debounceDelay p) = true /\ onChange p <> None)
         (p0 :: updates) ->
  let st := fold_left update updates (mounted p0) in
  exists callback wait,
    fst st = last updates p0
    /\ onChange (fst st) = Some callback
    /\ snd st = Some (callback, wait)
    /\ forall v final,
        finalValue v = Some final ->
        handleChange v (fst st) (snd st)
        = Some [viaDebounce callback wait final].
Proof.
  intros Hall st.
  inversion Hall as [|p ps [Hdelay Hcb] Hrest]; subst.
  assert (Hmount : wrapsCurrent (mounted p0)).
  { unfold wrapsCurrent, mounted, constructor. simpl. rewrite Hdelay.
    destruct (onChange p0) as [callback|]; [|now destruct Hcb].
    now exists callback, (debounceDelay p0). }
  destruct (updates_wrapsCurrent updates Hrest (mounted p0) Hmount)
    as [(callback & wait & Hcur & Hdeb) Hlast].
  exists callback, wait. repeat split; auto.
  intros v final Hfinal. unfold st, handleChange. now rewrite Hfinal, Hdeb.
Qed.

Lemma debounced_wraps_current_onChange_witness :
  let st :=
    fold_left update
      [mkProps (Some 1) (JNum 500); mkProps (Some 2) (JNum 250);
       mkProps (Some 2) (JNum 100)]
      (mounted (mkProps (Some 1) (JNum 500))) in
  snd st = Some (2, JNum 250)
  /\ exists callback wait,
      handleChange (JString "SELECT 1") (fst st) (snd st)
      = Some [viaDebounce callback wait (JString "SELECT 1")]
      /\ onChange (fst st) = Some callback.
Proof.
  cbv zeta. split; [reflexivity|].
  destruct (debounced_wraps_current_onChange
              (mkProps (Some 1) (JNum 500))
              [mkProps (Some 1) (JNum 500); mkProps (Some 2) (JNum 250);
               mkProps (Some 2) (JNum 100)])
    as (callback & wait & _ & Hcur & _ & Hchange).
  { repeat constructor; discriminate. }
  exists callback, wait. split; [|exact Hcur].
  now apply Hchange.
Defined.

(** X10: [handleChange] treats a change event like the value it carries; it
    throws on [null] and on an object without [target]; otherwise it makes
    at most one call, through the debounced handler when there is one, else
    to the [onChange] prop, and it never cancels anything. *)
Theorem handleChange_delivers_once
    (props : controlProps) (debounced : debouncedOnChange) :
  (forall v,
      finalValue v = Some v ->
      handleChange (JObject [("target", JObject [("value", v)])]) props debounced
      = handleChange v props debounced)
  /\ handleChange JNull props debounced = None
  /\ (forall fs, lookup "target" fs = None ->
                 handleChange (JObject fs) props debounced = None)
  /\ (forall v calls,
         handleChange v props debounced = Some calls ->
         exists final,
           finalValue v = Some final
           /\ calls
              = match debounced, onChange props with
                | Some (callback, wait), _ => [viaDebounce callback wait final]
                | None, Some callback => [direct callback final]
                | None, None => []
                end).
Proof.
  repeat match goal with |- _ /\ _ => split end.
  - intros v Hv. unfold handleChange. rewrite Hv. simpl finalValue.
    destruct v; try discriminate; reflexivity.
  - reflexivity.
  - intros fs Hfs. unfold handleChange, finalValue.
    rewrite ExplorePageMore.prop_object, Hfs. reflexivity.
  - intros v calls. unfold handleChange.
    destruct (finalValue v) as [final|]; [|discriminate].
    intros H. exists final. split; [reflexivity|].
    destruct debounced as [[callback wait]|]; [now injection H|].
    destruct (onChange props); now injection H.
Qed.

(** X11: in the style of the code editor the [resize] prop and the read-only
    background win over [textAreaStyles], which in turn win over the
    control's own border, minimum height and width; in the modal the default
    minimum height is 40em. *)
Theorem editorStyle_precedence
    (inModal : bool) (theme minLinesProp textAreaStyles resize readOnly : value) :
  let style :=
    editorStyle inModal theme minLinesProp textAreaStyles resize readOnly in
  lookup "backgroundColor" style
  = (if truthy readOnly then Some (theme ?. "colorBgMask")
     else lookup "backgroundColor" (own textAreaStyles))
  /\ lookup "resize" style
     = (if truthy resize then Some resize
        else lookup "resize" (own textAreaStyles))
  /\ (forall k v,
         k <> "resize" -> k <> "backgroundColor" ->
         lookup k (own textAreaStyles) = Some v ->
         lookup k style = Some v)
  /\ (lookup "minHeight" (own textAreaStyles) = None ->
      lookup "minHeight" style
      = Some (JString (to_string (minLines inModal minLinesProp) ++ "em"))
      /\ (inModal = true -> lookup "minHeight" style = Some (JString "40em"))
      /\ (inModal = false -> truthy minLinesProp = false ->
          lookup "minHeight" style = Some (JString "12em")))
  /\ (lookup "width" (own textAreaStyles) = None ->
      lookup "width" style = Some (JString "auto")).
Proof.
  intros style.
  assert (Hstyle : forall k,
             lookup k style
             = if String.eqb k "backgroundColor" && truthy readOnly
               then Some (theme ?. "colorBgMask")
               else if String.eqb k "resize" && truthy resize
                    then Some resize
                    else match lookup k (own textAreaStyles) with
                         | Some v => Some v
                         | None =>
                             lookup k
                               [("border",
                                 if truthy (theme ?. "colorBorder")
                                 then JString ("1px solid "
                                                 ++ to_string (theme ?. "colorBorder"))
                                 else JUndefined);
                                ("minHeight",
                                 JString (to_string (minLines inModal minLinesProp)
                                            ++ "em"));
                                ("width", JString "auto")]
                         end).
  { intros k. unfold style, editorStyle.
    destruct (truthy readOnly), (truthy resize);
      rewrite ?lookup_set, ?lookup_assign, ?andb_true_r, ?andb_false_r;
      reflexivity. }
  repeat match goal with |- _ /\ _ => split end.
  - rewrite Hstyle. simpl String.eqb. simpl andb.
    destruct (truthy readOnly); [reflexivity|].
    now destruct (lookup "backgroundColor" (own textAreaStyles)).
  - rewrite Hstyle. simpl String.eqb. simpl andb.
    destruct (truthy resize); [reflexivity|].
    now destruct (lookup "resize" (own textAreaStyles)).
  - intros k v Hk1 Hk2 Hk. apply String.eqb_neq in Hk1, Hk2.
    now rewrite Hstyle, Hk1, Hk2, Hk.
  - intros Hmin. rewrite Hstyle, Hmin. simpl.
    split; [reflexivity|]. split.
    + intros ->. reflexivity.
    + intros -> Hfalsy. unfold minLines, js_or. now rewrite Hfalsy.
  - intros Hwidth. now rewrite Hstyle, Hwidth.
Qed.

End TextAreaControlFacts.

(** ** Annotation modal: further properties *)
Module AnnotationModalMore.
Import AnnotationModal AnnotationModalFacts.

Lemma currentAnnotation_render (current : option AnnotationObject) (m : modal) :
  currentAnnotation (render current m) = current.
Proof. unfold render. now destruct (sameDeps _ _). Qed.

(** After a render the button shows the validation of what was rendered. *)
Lemma disableSave_render (current : option AnnotationObject) (m : modal) :
  reachable m -> disableSave (render current m) = validate current.
Proof.
  intros Hreach.
  destruct (render_validated current m (reachable_validated m Hreach))
    as [_ Hsave].
  now rewrite currentAnnotation_render in Hsave.
Qed.

Lemma disableSave_reachable (m : modal) :
  reachable m -> disableSave m = validate (currentAnnotation m).
Proof. intros Hreach. now destruct (reachable_validated m Hreach). Qed.

(** X12: typing in the description or in the JSON metadata never enables or
    disables the save button. *)
Theorem optional_fields_keep_disableSave (m : modal) :
  reachable m ->
  forall v,
    disableSave (apply (TextChanged name_long_descr v) m) = disableSave m
    /\ disableSave (apply (TextChanged name_json_metadata v) m) = disableSave m
    /\ disableSave (apply (JsonChanged v) m) = disableSave m.
Proof.
  intros Hreach v. simpl apply.
  rewrite !disableSave_render, (disableSave_reachable m Hreach) by exact Hreach.
  repeat split; apply validate_deps;
    now destruct (currentAnnotation m).
Qed.

Lemma optional_fields_keep_disableSave_witness :
  let m :=
    apply (DateChanged (Some "2024-01-01 00:00", Some "2024-01-02 00:00"))
      (apply (TextChanged name_short_descr "Launch") (apply Reset mounted)) in
  disableSave m = false
  /\ disableSave (apply (JsonChanged "{ not json") m) = disableSave m.
Proof.
  cbv zeta. split; [reflexivity|].
  apply (optional_fields_keep_disableSave
           (apply (DateChanged (Some "2024-01-01 00:00", Some "2024-01-02 00:00"))
              (apply (TextChanged name_short_descr "Launch")
                 (apply Reset mounted)))).
  repeat apply reachable_apply. apply reachable_mounted.
Defined.

(** X13: a date range with a missing end point clears both dates, keeps the
    name and the other fields, and disables the save button, whatever was
    picked before; a complete range stores the two formatted dates. *)
Theorem incomplete_range_clears_dates
    (m : modal) (dates : option string * option string) :
  reachable m ->
  let current := currentAnnotation m in
  let m' := apply (DateChanged dates) m in
  (fst dates = None \/ snd dates = None ->
   disableSave m' = true
   /\ field start_dttm (currentAnnotation m') = Some ""
   /\ field end_dttm (currentAnnotation m') = Some "")
  /\ (forall d0 d1, dates = (Some d0, Some d1) ->
                    field start_dttm (currentAnnotation m') = Some d0
                    /\ field end_dttm (currentAnnotation m') = Some d1)
  /\ field short_descr (currentAnnotation m') = Some (shortDescrOrEmpty current)
  /\ field long_descr (currentAnnotation m') = field long_descr current
  /\ field json_metadata (currentAnnotation m') = field json_metadata current
  /\ field id (currentAnnotation m') = field id current.
Proof.
  intros Hreach current m'.
  assert (Hcur : currentAnnotation m' = Some (onDateChange dates current)).
  { unfold m'. simpl apply. unfold render.
    now destruct (sameDeps _ _). }
  assert (Hsave : disableSave m' = validate (Some (onDateChange dates current))).
  { unfold m'. simpl apply. now apply disableSave_render. }
  rewrite Hcur, Hsave.
  repeat match goal with |- _ /\ _ => split end.
  - intros Hmissing. unfold validate, onDateChange.
    destruct dates as [[d0|] [d1|]]; simpl in Hmissing;
      destruct Hmissing as [H | H]; try discriminate; simpl;
      rewrite ?andb_false_r; auto.
  - intros d0 d1 ->. split; reflexivity.
  - unfold onDateChange. now destruct dates as [[d0|] [d1|]].
  - unfold onDateChange, current.
    destruct dates as [[d0|] [d1|]], (currentAnnotation m); reflexivity.
  - unfold onDateChange, current.
    destruct dates as [[d0|] [d1|]], (currentAnnotation m); reflexivity.
  - unfold onDateChange, current.
    destruct dates as [[d0|] [d1|]], (currentAnnotation m); reflexivity.
Qed.

Lemma incomplete_range_clears_dates_witness :
  let m :=
    apply (DateChanged (Some "2024-01-01 00:00", Some "2024-01-02 00:00"))
      (apply (TextChanged name_short_descr "Launch") (apply Reset mounted)) in
  disableSave m = false
  /\ disableSave (apply (DateChanged (Some "2024-01-05 00:00", None)) m) = true.
Proof.
  cbv zeta. split; [reflexivity|].
  apply (incomplete_range_clears_dates
           (apply (DateChanged (Some "2024-01-01 00:00", Some "2024-01-02 00:00"))
              (apply (TextChanged name_short_descr "Launch")
                 (apply Reset mounted)))
           (Some "2024-01-05 00:00", None)).
  - repeat apply reachable_apply. apply reachable_mounted.
  - now right.
Defined.

(** X14: hiding the modal in create mode leaves a blank form with the save
    button disabled, whatever had been entered; in edit mode it puts the
    hook's resource back, and the button follows that resource. *)
Theorem hide_resets_form (m : modal) (resource : option AnnotationObject) :
  reachable m ->
  currentAnnotation (apply (Hidden false resource) m) = Some resetAnnotation
  /\ disableSave (apply (Hidden false resource) m) = true
  /\ visible (currentAnnotation (apply (Hidden false resource) m))
     = (Some "", Some "", Some "", Some "", Some "")
  /\ currentAnnotation (apply (Hidden true resource) m) = resource
  /\ disableSave (apply (Hidden true resource) m) = validate resource.
Proof.
  intros Hreach. simpl apply.
  rewrite !disableSave_render by exact Hreach.
  unfold render. simpl fst.
  destruct (sameDeps (validationDeps (Some resetAnnotation)) (validatedDeps m)),
    (sameDeps (validationDeps resource) (validatedDeps m));
    repeat split.
Qed.

Lemma hide_resets_form_witness :
  let m :=
    apply (DateChanged (Some "2024-01-01 00:00", Some "2024-01-02 00:00"))
      (apply (TextChanged name_short_descr "Launch") (apply Reset mounted)) in
  disableSave m = false
  /\ disableSave (apply (Hidden false None) m) = true.
Proof.
  cbv zeta. split; [reflexivity|].
  apply (hide_resets_form
           (apply (DateChanged (Some "2024-01-01 00:00", Some "2024-01-02 00:00"))
              (apply (TextChanged name_short_descr "Launch")
                 (apply Reset mounted)))
           None).
  repeat apply reachable_apply. apply reachable_mounted.
Defined.

(** X15: in edit mode [onSave] deletes the id of the annotation it sends, so
    a second [onSave] on the annotation it leaves behind makes no request
    and changes nothing; in create mode [onSave] leaves the annotation as it
    is and a second one repeats the same request. *)
Theorem onSave_twice (current : option AnnotationObject) :
  snd (onSave true (fst (onSave true current))) = None
  /\ fst (onSave true (fst (onSave true current))) = fst (onSave true current)
  /\ fst (onSave false current) = current
  /\ onSave false (fst (onSave false current)) = onSave false current
  /\ (forall a, current = Some a -> hasId a = true ->
                exists update_id,
                  snd (onSave true current)
                  = Some (updateResource update_id (stripped a))
                  /\ fst (onSave true current) = Some (stripped a)).
Proof.
  unfold onSave.
  destruct current as [a|]; simpl.
  - destruct (hasId a) eqn:Hid.
    + destruct (id a) as [n|] eqn:Hn; simpl.
      * repeat split; auto. intros a' [= <-] _. now exists n.
      * unfold hasId in Hid. rewrite Hn in Hid. discriminate.
    + simpl. rewrite Hid. simpl. repeat split; auto.
      intros a' [= <-] H. congruence.
  - repeat split; auto. discriminate.
Qed.

(** X16: editing a loaded annotation keeps its id: after a change of a text
    field, of the JSON metadata or of the dates, [onSave] in edit mode
    updates the same record, with the edited fields as payload. *)
Theorem edits_keep_update_id
    (a : AnnotationObject) (name : textField) (v : string)
    (dates : option string * option string) :
  hasId a = true ->
  exists update_id,
    id a = Some update_id
    /\ snd (onSave true (Some (onAnnotationTextChange name v (Some a))))
       = Some (updateResource update_id
                 (stripped (onAnnotationTextChange name v (Some a))))
    /\ snd (onSave true (Some (onJsonChange v (Some a))))
       = Some (updateResource update_id (stripped (onJsonChange v (Some a))))
    /\ snd (onSave true (Some (onDateChange dates (Some a))))
       = Some (updateResource update_id (stripped (onDateChange dates (Some a)))).
Proof.
  intros Hid. unfold hasId in Hid.
  destruct (id a) as [n|] eqn:Hn; [|discriminate].
  exists n. split; [reflexivity|].
  assert (Hsave : forall a', id a' = Some n ->
                             snd (onSave true (Some a'))
                             = Some (updateResource n (stripped a'))).
  { intros a' Ha'. unfold onSave, hasId. now rewrite Ha', Hid. }
  repeat split; apply Hsave.
  - now destruct name.
  - exact Hn.
  - unfold onDateChange. now destruct dates as [[d0|] [d1|]].
Qed.

Lemma edits_keep_update_id_witness :
  let a :=
    mkAnnotation (Some 12%Z) (Some "Launch") (Some "2024-01-01 00:00")
      (Some "2024-01-02 00:00") None None None None None (Some (JNum 3)) in
  snd (onSave true (Some (onJsonChange "{}" (Some a))))
  = Some (updateResource 12
            (mkAnnotation None (Some "Launch") (Some "2024-01-01 00:00")
               (Some "2024-01-02 00:00") (Some "{}") None None None None None)).
Proof.
  cbv zeta.
  destruct (edits_keep_update_id
              (mkAnnotation (Some 12%Z) (Some "Launch") (Some "2024-01-01 00:00")
                 (Some "2024-01-02 00:00") None None None None None
                 (Some (JNum 3)))
              name_short_descr "{}" (None, None) eq_refl)
    as (update_id & Hid & _ & Hjson & _).
  injection Hid as <-. exact Hjson.
Defined.

End AnnotationModalMore.
